(** * Session-authorization middleware of the SAML service provider

    A shallow embedding of [middleware.go] (package [saml]): the default
    session check [DefaultIsAuthorized], the default assertion callback
    [DefaultAuthorizeFunc] and the guard [RequireAccountMiddleware], together
    with the parts of the libraries they call.

    Conventions.
    - Go maps ([http.Header], [url.Values], the claims of a token) are
      [gmap string _].
    - A Go function that can panic returns [Exec A]; a Go [(T, error)] result
      is [result T].
    - Functions of imported packages whose bodies do not matter to the
      middleware (JSON and base64 coding, MAC computation, PEM and URL
      parsing, cookie parsing, header-name canonicalisation, the clocks) and
      the methods of [ServiceProvider], which live in another file of the
      package, are fields of type classes; every statement below is
      quantified over them.  Module [Standin] gives small executable
      instances on which the statements are evaluated at concrete
      requests. *)

From Stdlib Require Import ZArith String Ascii List Lia DecimalString.
From stdpp Require Import base option strings gmap list.

Open Scope string_scope.
Open Scope Z_scope.

(** ** Go basics *)

(** [[]byte] *)
Definition bytes := list Byte.byte.

(** The value of an [error]: its message. *)
Definition error := string.

(** Go's [(T, error)]: either a value with a nil error, or an error. *)
Inductive result (A : Type) : Type :=
| Ok (a : A)
| Err (e : error).
Arguments Ok {A} a.
Arguments Err {A} e.

(** What a [panic] carries. *)
Inductive PanicValue : Type :=
| NilDereference                 (* runtime error: nil pointer dereference *)
| InterfaceConversion            (* runtime error: failed type assertion x.(T) *)
| PanicString (msg : string)     (* panic("...") *)
| PanicError (err : error).      (* panic(err) *)

(** A computation that either returns or panics. *)
Inductive Exec (A : Type) : Type :=
| Return (a : A)
| Panic (p : PanicValue).
Arguments Return {A} a.
Arguments Panic {A} p.

#[global] Instance Exec_ret : MRet Exec := fun A a => Return a.
#[global] Instance Exec_bind : MBind Exec := fun A B k x =>
  match x with
  | Return a => k a
  | Panic p => Panic p
  end.

(** [for k, v := range m]: every entry of the map once, in an order the
    language leaves open. *)
Class MapRange : Type := {
  range : ∀ {V : Type}, gmap string V → list (string * V);
  range_Permutation :
    ∀ (V : Type) (m : gmap string V), range m ≡ₚ map_to_list m;
}.

(** A value held in an [interface{}] slot of a claim or header map, as
    [encoding/json] sees it: a string, a number, or anything else (bool,
    null, array, object).  A number is held as [int64] before marshalling
    and as [float64] after unmarshalling; the model keeps its integral
    value. *)
Inductive any : Type :=
| VString (s : string)
| VNumber (n : Z)
| VOther (raw : string).

#[global] Instance any_eq_dec : EqDecision any.
Proof. solve_decision. Defined.

(** ** Package [strings] *)

Module strings.

Definition HasPrefix (s prefix : string) : bool := String.prefix prefix s.

(** [strings.Split(s, sep)] for a one-byte separator: the pieces of [s]
    between the occurrences of [sep]; one piece when there is none. *)
Fixpoint Split (s : string) (sep : ascii) : list string :=
  match s with
  | EmptyString => [EmptyString]
  | String c s' =>
      if Ascii.eqb c sep then EmptyString :: Split s' sep
      else match Split s' sep with
           | p :: ps => String c p :: ps
           | [] => [String c EmptyString]
           end
  end.

(** [strings.Join(parts, sep)] *)
Fixpoint Join (parts : list string) (sep : string) : string :=
  match parts with
  | [] => ""
  | [p] => p
  | p :: ps => p +:+ sep +:+ Join ps sep
  end.

(** [s] holds no byte [c]. *)
Fixpoint free_of (c : ascii) (s : string) : bool :=
  match s with
  | EmptyString => true
  | String d s' => negb (Ascii.eqb d c) && free_of c s'
  end.

End strings.

(** ** Package [time] *)

Module time.

(** An instant, in nanoseconds since the Unix epoch. *)
Definition Time := Z.
(** A [time.Duration], in nanoseconds. *)
Definition Duration := Z.

Definition Second : Duration := 1000000000.
Definition Hour : Duration := 3600 * Second.

Definition Add (t : Time) (d : Duration) : Time := t + d.
(** [t.Unix()]: whole seconds since the epoch. *)
Definition Unix (t : Time) : Z := t / Second.
(** [int(d.Seconds())] *)
Definition SecondsInt (d : Duration) : Z := Z.quot d Second.

End time.

(** ** Package [net/url] *)

Module url.

Record URL : Type := {
  Scheme : string;
  Host : string;
  Path : string;
  RawQuery : string;
}.

(** [url.Parse] and the [String] method of a URL. *)
Class Primitives : Type := {
  Parse : string → result URL;
  String : URL → string;
}.

End url.

(** ** Package [encoding/pem] *)

Module pem.

Record Block : Type := { Bytes : bytes }.

(** [pem.Decode]: the first PEM block of the input, or nil. *)
Class Primitives : Type := {
  Decode : bytes → option Block;
}.

End pem.

(** [url.Values.Get]: the first value of the key, or the empty string. *)
Definition Values_Get (v : gmap string (list string)) (key : string) : string :=
  match v !! key with
  | Some (x :: _) => x
  | _ => ""
  end.

(** ** Package [net/http] *)

Module http.

Definition StatusFound : Z := 302.
Definition StatusForbidden : Z := 403.
Definition StatusInternalServerError : Z := 500.

Definition StatusText (code : Z) : string :=
  if decide (code = StatusFound) then "Found"
  else if decide (code = StatusForbidden) then "Forbidden"
  else if decide (code = StatusInternalServerError) then "Internal Server Error"
  else "".

Record Cookie : Type := {
  Name : string;
  Value : string;
  Path : string;
  MaxAge : Z;
  HttpOnly : bool;
}.

(** The request, with the fields the middleware reads.  [Header] is an
    [http.Header], [Form] a [url.Values]. *)
Record Request : Type := {
  URL : url.URL;
  Header : gmap string (list string);
  Form : gmap string (list string);
}.

(** [http.CanonicalHeaderKey], and [readCookies], which parses the
    [Cookie] lines of a header and keeps the cookies with the given name. *)
Class Primitives : Type := {
  CanonicalHeaderKey : string → string;
  readCookies : gmap string (list string) → string → list Cookie;
}.

(** [h.Set(key, value)]: the canonical key now holds exactly [value]. *)
Definition Header_Set `{Primitives} (h : gmap string (list string))
    (key value : string) : gmap string (list string) :=
  <[CanonicalHeaderKey key := [value]]> h.

(** [h.Get(key)]: the first value under the canonical key, or "". *)
Definition Header_Get `{Primitives} (h : gmap string (list string))
    (key : string) : string :=
  match h !! CanonicalHeaderKey key with
  | Some (v :: _) => v
  | _ => ""
  end.

(** [r.Cookie(name)]: the first cookie of that name, or [ErrNoCookie]. *)
Definition Request_Cookie `{Primitives} (r : Request) (name : string)
    : result Cookie :=
  match readCookies (Header r) name with
  | c :: _ => Ok c
  | [] => Err "http: named cookie not present"
  end.

Definition with_Header (r : Request) (h : gmap string (list string))
    : Request :=
  {| URL := URL r; Header := h; Form := Form r |}.

(** A call made on the response. *)
Inductive Call : Type :=
| WriteCall (buf : string)
| ErrorCall (msg : string) (code : Z)
| SetCookieCall (cookie : Cookie)
| RedirectCall (urlStr : string) (code : Z).

(** The [http.ResponseWriter]: the calls made on it so far, oldest first. *)
Definition ResponseWriter := list Call.

Definition Error (w : ResponseWriter) (msg : string) (code : Z)
    : ResponseWriter := (w ++ [ErrorCall msg code])%list.

Definition SetCookie (w : ResponseWriter) (cookie : Cookie)
    : ResponseWriter := (w ++ [SetCookieCall cookie])%list.

Definition Redirect (w : ResponseWriter) (r : Request) (urlStr : string)
    (code : Z) : ResponseWriter := (w ++ [RedirectCall urlStr code])%list.

(** An [http.Handler]; it may panic. *)
Definition Handler := ResponseWriter → Request → Exec ResponseWriter.

Definition StatusNotFound : Z := 404.

(** [http.NotFoundHandler()]: the handler that answers 404 with the
    library's text. *)
Definition NotFoundHandler : Handler :=
  fun w _ => Return (Error w "404 page not found" StatusNotFound).

(** [w.Write(buf)] *)
Definition Write (w : ResponseWriter) (buf : string) : ResponseWriter :=
  (w ++ [WriteCall buf])%list.

(** [r.ParseForm()]: the request with [Form] filled from the query and
    the body. *)
Class FormParser : Type := {
  ParseForm : Request → Request;
}.

End http.

(** ** Package [github.com/dgrijalva/jwt-go]

    The library is imported, not part of the package.  The model follows
    its map-claims API as the middleware uses it: [New], [SignedString] and
    [Parse], with the signing methods behind the [SigningMethod]
    interface. *)

Module jwt.

(** The interface [jwt.SigningMethod].  [Verify] returns nil ([None]) when
    the signature is good. *)
Record SigningMethod : Type := {
  Verify : string → string → bytes → option error;
  Sign : string → bytes → result string;
  Alg : string;
}.

Record Token : Type := {
  Raw : string;
  Method : option SigningMethod;
  Header : gmap string any;
  Claims : gmap string any;
  Valid : bool;
}.

(** The registry of signing methods, the coding of a JSON object as a
    token segment (marshal then base64url, and back), and the clock. *)
Class Primitives : Type := {
  GetSigningMethod : string → option SigningMethod;
  EncodeJSONSegment : gmap string any → string;
  DecodeJSONSegment : string → result (gmap string any);
  TimeFunc : time.Time;
}.

(** The callback that hands [Parse] the key for a token. *)
Definition Keyfunc := Token → Exec (result bytes).

(** The header [jwt.New] gives a token. *)
Definition new_Header (m : SigningMethod) : gmap string any :=
  <["typ" := VString "JWT"]> (<["alg" := VString (Alg m)]> ∅).

(** [jwt.New(method)]; calling [Alg] on a nil method panics. *)
Definition New (method : option SigningMethod) : Exec Token :=
  match method with
  | None => Panic NilDereference
  | Some m =>
      Return {| Raw := "";
                Method := Some m;
                Header := new_Header m;
                Claims := ∅;
                Valid := false |}
  end.

(** [t.Claims[name] = v] *)
Definition set_Claim (t : Token) (name : string) (v : any) : Token :=
  {| Raw := Raw t; Method := Method t; Header := Header t;
     Claims := <[name := v]> (Claims t); Valid := Valid t |}.

(** The token with its claim map replaced. *)
Definition with_Claims (t : Token) (claims : gmap string any) : Token :=
  {| Raw := Raw t; Method := Method t; Header := Header t;
     Claims := claims; Valid := Valid t |}.

Section Coding.
Context `{Primitives}.

(** [t.SigningString()]: header segment, a dot, claims segment. *)
Definition SigningString (t : Token) : string :=
  strings.Join [EncodeJSONSegment (Header t); EncodeJSONSegment (Claims t)] ".".

(** [t.SignedString(key)] *)
Definition SignedString (t : Token) (key : bytes) : Exec (result string) :=
  let sstr := SigningString t in
  match Method t with
  | None => Panic NilDereference
  | Some m =>
      match Sign m sstr key with
      | Err e => Return (Err e)
      | Ok sig => Return (Ok (strings.Join [sstr; sig] "."))
      end
  end.

Definition expired (claims : gmap string any) : bool :=
  match claims !! "exp" with
  | Some (VNumber exp) => bool_decide (time.Unix TimeFunc > exp)
  | _ => false
  end.

Definition not_valid_yet (claims : gmap string any) : bool :=
  match claims !! "nbf" with
  | Some (VNumber nbf) => bool_decide (time.Unix TimeFunc < nbf)
  | _ => false
  end.

(** [jwt.Parse(tokenString, keyFunc)]: the token (nil when the string has
    not three segments) and the error (nil exactly when [Valid] is set).
    The signing method is looked up from the [alg] entry of the token's
    own header; the key comes from [keyFunc]. *)
Definition Parse (tokenString : string) (keyFunc : Keyfunc)
    : Exec (option Token * option error) :=
  match strings.Split tokenString "." with
  | [p0; p1; p2] =>
      let token h c m v :=
        {| Raw := tokenString; Method := m; Header := h; Claims := c;
           Valid := v |} in
      match DecodeJSONSegment p0 with
      | Err e => Return (Some (token ∅ ∅ None false), Some e)
      | Ok header =>
      match DecodeJSONSegment p1 with
      | Err e => Return (Some (token header ∅ None false), Some e)
      | Ok claims =>
      match header !! "alg" with
      | Some (VString alg) =>
          match GetSigningMethod alg with
          | None =>
              Return (Some (token header claims None false),
                      Some "signing method (alg) is unavailable.")
          | Some method =>
              r ← keyFunc (token header claims (Some method) false);
              match r with
              | Err e =>
                  Return (Some (token header claims (Some method) false),
                          Some e)
              | Ok key =>
                  let vErr0 : option error :=
                    if expired claims then Some "token is expired" else None in
                  let vErr1 : option error :=
                    if not_valid_yet claims then Some "token is not valid yet"
                    else vErr0 in
                  let vErr2 : option error :=
                    match Verify method (strings.Join [p0; p1] ".") p2 key with
                    | Some e => Some e
                    | None => vErr1
                    end in
                  match vErr2 with
                  | None =>
                      Return (Some (token header claims (Some method) true),
                              None)
                  | Some e =>
                      Return (Some (token header claims (Some method) false),
                              Some e)
                  end
              end
          end
      | _ =>
          Return (Some (token header claims None false),
                  Some "signing method (alg) is unspecified.")
      end
      end
      end
  | _ => Return (None, Some "token contains an invalid number of segments")
  end.

End Coding.

(** The library with its clock set to [t]. *)
Definition at_time (lib : Primitives) (t : time.Time) : Primitives :=
  {| GetSigningMethod := @GetSigningMethod lib;
     EncodeJSONSegment := @EncodeJSONSegment lib;
     DecodeJSONSegment := @DecodeJSONSegment lib;
     TimeFunc := t |}.

End jwt.

(** ** Package [saml]: [middleware.go] *)

Module saml.

(** Modelled from the spec: the type [ServiceProvider] is declared in
    another file of the package; the record has the fields the middleware
    reads (the PEM-encoded key, the metadata path, the callback path).  It is
    named [ServiceProviderT] because the field of the middleware that holds
    it bears the type's name. *)
Record ServiceProviderT : Type := {
  Key : string;
  MetadataURL : string;
  AcsURL : string;
}.

(** Modelled from the spec: [AssertionAttributes], declared in another
    file, is the verified attribute set, a list of attributes of which the
    middleware reads the friendly name and the value. *)
Record AssertionAttribute : Type := {
  FriendlyName : string;
  Value : string;
}.
Definition AssertionAttributes := list AssertionAttribute.

Record ServiceProviderMiddleware : Type := {
  ServiceProvider : ServiceProviderT;
  IsAuthorizedFunc : option (http.Request → Exec (bool * http.Request));
  AuthorizeFunc :
    option (http.ResponseWriter → http.Request → AssertionAttributes →
            Exec http.ResponseWriter);
}.

Definition cookieMaxAge : time.Duration := time.Hour.
Definition cookieName : string := "token".

(** What the middleware uses of the other files of the package: the clock
    [timeNow] and the method [MakeRedirectAuthenticationRequest] of the
    service provider. *)
Class Collaborators : Type := {
  timeNow : time.Time;
  MakeRedirectAuthenticationRequest :
    ServiceProviderT → string → result url.URL;
}.

Section Middleware.
Context {go_map : MapRange} {url_lib : url.Primitives}
        {pem_lib : pem.Primitives} {http_lib : http.Primitives}
        {jwt_lib : jwt.Primitives} {package : Collaborators}.

(** [secretBlock.Bytes], where [secretBlock] may be nil. *)
Definition Block_Bytes (secretBlock : option pem.Block) : Exec bytes :=
  match secretBlock with
  | None => Panic NilDereference
  | Some b => Return (pem.Bytes b)
  end.

(** The key callback both verifications pass to [jwt.Parse]: the bytes of
    the PEM block of the service provider's key, whatever the token. *)
Definition secretKeyfunc (m : ServiceProviderMiddleware) : jwt.Keyfunc :=
  fun _ =>
    key ← Block_Bytes (pem.Decode (list_byte_of_string (Key (ServiceProvider m))));
    Return (Ok key).

(** The loop over [r.Header] of [DefaultIsAuthorized]. *)
Fixpoint check_headers (headers : list (string * list string)) : Exec unit :=
  match headers with
  | [] => Return tt
  | (headerName, _) :: rest =>
      if strings.HasPrefix headerName "X-Saml"
      then Panic (PanicString
             "X-Saml-* headers should not exist when this function is called")
      else check_headers rest
  end.

(** The loop over [token.Claims] of [DefaultIsAuthorized]. *)
Fixpoint copy_claims (claims : list (string * any))
    (header : gmap string (list string)) : gmap string (list string) :=
  match claims with
  | [] => header
  | (claimName, claimValue) :: rest =>
      match claimValue with
      | VString c =>
          copy_claims rest (http.Header_Set header ("X-Saml-" +:+ claimName) c)
      | _ => copy_claims rest header
      end
  end.

(** [DefaultIsAuthorized]: the verdict and the request as the call leaves
    it. *)
Definition DefaultIsAuthorized (m : ServiceProviderMiddleware)
    (r : http.Request) : Exec (bool * http.Request) :=
  match http.Request_Cookie r cookieName with
  | Err _ => Return (false, r)
  | Ok cookie =>
      '(token, err) ← jwt.Parse (http.Value cookie) (secretKeyfunc m);
      match err, token with
      | Some _, _ => Return (false, r)
      | None, None => Panic NilDereference
      | None, Some token =>
          if negb (jwt.Valid token) then Return (false, r)
          else
            _ ← check_headers (range (http.Header r));
            Return (true,
                    http.with_Header r
                      (copy_claims (range (jwt.Claims token)) (http.Header r)))
      end
  end.

(** Lines 140 to 158 of [DefaultAuthorizeFunc]: once the redirect target is
    known, sign the session token, set the cookie and redirect. *)
Definition set_cookie_and_redirect (m : ServiceProviderMiddleware)
    (w : http.ResponseWriter) (r : http.Request)
    (assertionAttributes : AssertionAttributes)
    (secretBlock : option pem.Block) (redirectURI : string)
    : Exec http.ResponseWriter :=
  token ← jwt.New (jwt.GetSigningMethod "HS256");
  let token :=
    fold_left
      (fun t attr => jwt.set_Claim t (FriendlyName attr) (VString (Value attr)))
      assertionAttributes token in
  let token :=
    jwt.set_Claim token "exp"
      (VNumber (time.Unix (time.Add timeNow cookieMaxAge))) in
  key ← Block_Bytes secretBlock;
  signed ← jwt.SignedString token key;
  match signed with
  | Err err => Panic (PanicError err)
  | Ok signedToken =>
      let w :=
        http.SetCookie w
          {| http.Name := cookieName;
             http.Value := signedToken;
             http.MaxAge := time.SecondsInt cookieMaxAge;
             http.HttpOnly := false;
             http.Path := "/" |} in
      Return (http.Redirect w r redirectURI http.StatusFound)
  end.

(** [DefaultAuthorizeFunc] *)
Definition DefaultAuthorizeFunc (m : ServiceProviderMiddleware)
    (w : http.ResponseWriter) (r : http.Request)
    (assertionAttributes : AssertionAttributes) : Exec http.ResponseWriter :=
  let secretBlock :=
    pem.Decode (list_byte_of_string (Key (ServiceProvider m))) in
  if decide (Values_Get (http.Form r) "RelayState" ≠ "") then
    '(relayState, err) ←
      jwt.Parse (Values_Get (http.Form r) "RelayState") (secretKeyfunc m);
    match err, relayState with
    | Some _, _ =>
        Return (http.Error w (http.StatusText http.StatusForbidden)
                  http.StatusForbidden)
    | None, None => Panic NilDereference
    | None, Some relayState =>
        if negb (jwt.Valid relayState) then
          Return (http.Error w (http.StatusText http.StatusForbidden)
                    http.StatusForbidden)
        else
          match jwt.Claims relayState !! "uri" with
          | Some (VString redirectURI) =>
              set_cookie_and_redirect m w r assertionAttributes secretBlock
                redirectURI
          | _ => Panic InterfaceConversion
          end
    end
  else
    set_cookie_and_redirect m w r assertionAttributes secretBlock "/".

(** [RequireAccountMiddleware] *)
Definition RequireAccountMiddleware (m : ServiceProviderMiddleware)
    (handler : http.Handler) : http.Handler :=
  fun w r =>
    let isAuthorized :=
      match IsAuthorizedFunc m with
      | None => DefaultIsAuthorized m
      | Some f => f
      end in
    '(authorized, r) ← isAuthorized r;
    if (authorized : bool) then handler w r
    else
      let secretBlock :=
        pem.Decode (list_byte_of_string (Key (ServiceProvider m))) in
      relayState ← jwt.New (jwt.GetSigningMethod "HS256");
      let relayState :=
        jwt.set_Claim relayState "uri" (VString (url.String (http.URL r))) in
      key ← Block_Bytes secretBlock;
      signed ← jwt.SignedString relayState key;
      match signed with
      | Err err => Panic (PanicError err)
      | Ok signedRelayState =>
          match MakeRedirectAuthenticationRequest (ServiceProvider m)
                  signedRelayState with
          | Err err =>
              Return (http.Error w err http.StatusInternalServerError)
          | Ok redirectURL =>
              match url.Parse (AcsURL (ServiceProvider m)) with
              | Err _ => Panic NilDereference
              | Ok acsURL =>
                  if decide (url.Path (http.URL r) = url.Path acsURL) then
                    Panic (PanicString
                      "don't wrap ServiceProviderMiddleware with RequireAccountMiddleware")
                  else
                    Return (http.Redirect w r (url.String redirectURL)
                              http.StatusFound)
              end
          end
      end.

(** Modelled from the spec: the failure of the assertion verifier.  The
    type [InvalidResponseError] is declared in another file; it carries the
    offending response, the clock reading of the verification and the
    underlying cause.  Any other error is [OtherError]. *)
Inductive ResponseError : Type :=
| InvalidResponseError (Response : string) (Now : time.Time)
    (PrivateErr : error)
| OtherError (err : error).

(** What [ServeHTTP] uses of the other files of the package: the methods
    [Metadata] (here with its XML rendering by [xml.MarshalIndent]) and
    [ParseResponse] of the service provider. *)
Class Verifier : Type := {
  MetadataXML : ServiceProviderT → string;
  ParseResponse :
    ServiceProviderT → http.Request → string →
    AssertionAttributes + ResponseError;
}.

(** A call of [log.Printf] with the detail of an invalid response. *)
Inductive LogCall : Type :=
| Printf (format : string) (Response : string) (Now : time.Time)
    (PrivateErr : error).

Context {form_parser : http.FormParser} {verifier : Verifier}.

(** [ServeHTTP]: the response and what was logged. *)
Definition ServeHTTP (m : ServiceProviderMiddleware)
    (w : http.ResponseWriter) (r : http.Request)
    : Exec (http.ResponseWriter * list LogCall) :=
  match url.Parse (MetadataURL (ServiceProvider m)) with
  | Err _ => Panic NilDereference
  | Ok metadataURL =>
      if decide (url.Path (http.URL r) = url.Path metadataURL) then
        let buf := MetadataXML (ServiceProvider m) in
        Return (http.Write w buf, [])
      else
        match url.Parse (AcsURL (ServiceProvider m)) with
        | Err _ => Panic NilDereference
        | Ok acsURL =>
            if decide (url.Path (http.URL r) = url.Path acsURL) then
              let r := http.ParseForm r in
              let requestID := "" in
              match ParseResponse (ServiceProvider m) r requestID with
              | inr err =>
                  let logged :=
                    match err with
                    | InvalidResponseError response now privateErr =>
                        [Printf "RESPONSE: ===\n%s\n===\nNOW: %s\nERROR: %s"
                           response now privateErr]
                    | OtherError _ => []
                    end in
                  Return (http.Error w
                            (http.StatusText http.StatusForbidden)
                            http.StatusForbidden, logged)
              | inl assertionAttributes =>
                  let authorizeFunc :=
                    match AuthorizeFunc m with
                    | None => DefaultAuthorizeFunc m
                    | Some f => f
                    end in
                  w ← authorizeFunc w r assertionAttributes;
                  Return (w, [])
              end
            else
              w ← http.NotFoundHandler w r;
              Return (w, [])
        end
  end.

(** The loop over the header values of [RequireAttribute]: the run of the
    handler at the first value that equals [value], or nothing when the
    loop ends. *)
Fixpoint attribute_loop (values : list string) (value : string)
    (handler : http.Handler) (w : http.ResponseWriter) (r : http.Request)
    : option (Exec http.ResponseWriter) :=
  match values with
  | [] => None
  | actualValue :: rest =>
      if decide (actualValue = value) then Some (handler w r)
      else attribute_loop rest value handler w r
  end.

(** [RequireAttribute] *)
Definition RequireAttribute (name value : string) (handler : http.Handler)
    : http.Handler :=
  fun w r =>
    let refuse :=
      Return (http.Error w (http.StatusText http.StatusForbidden)
                http.StatusForbidden) in
    match http.Header r !! http.CanonicalHeaderKey ("X-Saml-" +:+ name) with
    | Some values =>
        match attribute_loop values value handler w r with
        | Some served => served
        | None => refuse
        end
    | None => refuse
    end.

(** *** The notions the properties are stated with *)

(** The check the middleware runs, default or supplied. *)
Definition isAuthorized (m : ServiceProviderMiddleware)
    : http.Request → Exec (bool * http.Request) :=
  match IsAuthorizedFunc m with
  | None => DefaultIsAuthorized m
  | Some f => f
  end.

(** The claims [DefaultAuthorizeFunc] gives a session token: one per
    attribute, later attributes of the same friendly name winning. *)
Definition attribute_claims (assertionAttributes : AssertionAttributes)
    : gmap string any :=
  fold_left
    (fun c attr => <[FriendlyName attr := VString (Value attr)]> c)
    assertionAttributes ∅.

(** [encode(claims, secret)] of the token codec, as the middleware does it:
    a new HS256 token with these claims, signed with the secret. *)
Definition encode (claims : gmap string any) (secret : bytes)
    : Exec (result string) :=
  token ← jwt.New (jwt.GetSigningMethod "HS256");
  jwt.SignedString (jwt.with_Claims token claims) secret.

(** [decode_and_verify(token_string, secret)] of the token codec, as the
    middleware does it: [jwt.Parse] with a key callback that returns the
    secret, accepted when the error is nil and [Valid] is set. *)
Definition decode_and_verify (tokenString : string) (secret : bytes)
    : Exec (result (gmap string any)) :=
  '(token, err) ← jwt.Parse tokenString (fun _ => Return (Ok secret));
  match err, token with
  | Some e, _ => Return (Err e)
  | None, None => Panic NilDereference
  | None, Some token =>
      if jwt.Valid token then Return (Ok (jwt.Claims token))
      else Return (Err "token is invalid")
  end.

(** The claims of the session token: the attributes, and [exp] one hour
    after the clock reading. *)
Definition session_claims (assertionAttributes : AssertionAttributes)
    : gmap string any :=
  <["exp" := VNumber (time.Unix timeNow + 3600)]>
    (attribute_claims assertionAttributes).

(** The cookie that carries a session token. *)
Definition session_cookie (signedToken : string) : http.Cookie :=
  {| http.Name := "token"; http.Value := signedToken; http.Path := "/";
     http.MaxAge := 3600; http.HttpOnly := false |}.

(** The claims of the relay state issued for a request. *)
Definition relay_state_claims (r : http.Request) : gmap string any :=
  {["uri" := VString (url.String (http.URL r))]}.

(** The key of the middleware is a PEM block and signs the claims into
    [signedToken]. *)
Definition signs (m : ServiceProviderMiddleware) (claims : gmap string any)
    (signedToken : string) : Prop :=
  ∃ block,
    pem.Decode (list_byte_of_string (Key (ServiceProvider m))) = Some block ∧
    encode claims (pem.Bytes block) = Return (Ok signedToken).

(** The response that establishes the session: the cookie with the signed
    session token, then the redirect.  It panics when the key is no PEM
    block or the token cannot be signed. *)
Definition session_response (m : ServiceProviderMiddleware)
    (w : http.ResponseWriter) (assertionAttributes : AssertionAttributes)
    (redirectURI : string) : Exec http.ResponseWriter :=
  key ← Block_Bytes
          (pem.Decode (list_byte_of_string (Key (ServiceProvider m))));
  signed ← encode (session_claims assertionAttributes) key;
  match signed with
  | Err err => Panic (PanicError err)
  | Ok signedToken =>
      Return (w ++ [http.SetCookieCall (session_cookie signedToken);
                    http.RedirectCall redirectURI 302])%list
  end.

(** The refusal: 403 with the standard text, and nothing else. *)
Definition forbidden (w : http.ResponseWriter) : http.ResponseWriter :=
  (w ++ [http.ErrorCall "Forbidden" 403])%list.

(** The response of the guard to a request that is not authorized, given
    the signed relay state. *)
Definition unauthorized_response (m : ServiceProviderMiddleware)
    (w : http.ResponseWriter) (r : http.Request) (signedRelayState : string)
    : Exec http.ResponseWriter :=
  match MakeRedirectAuthenticationRequest (ServiceProvider m)
          signedRelayState with
  | Err err => Return (w ++ [http.ErrorCall err 500])%list
  | Ok redirectURL =>
      match url.Parse (AcsURL (ServiceProvider m)) with
      | Err _ => Panic NilDereference
      | Ok acsURL =>
          if decide (url.Path (http.URL r) = url.Path acsURL) then
            Panic (PanicString
              "don't wrap ServiceProviderMiddleware with RequireAccountMiddleware")
          else
            Return (w ++ [http.RedirectCall (url.String redirectURL) 302])%list
      end
  end.

(** The verification of a token string by the middleware [m] succeeds with
    the parsed token [t]: [err == nil && t.Valid]. *)
Definition verifies (m : ServiceProviderMiddleware) (tokenString : string)
    (t : jwt.Token) : Prop :=
  jwt.Parse tokenString (secretKeyfunc m) = Return (Some t, None) ∧
  jwt.Valid t = true.

(** The verification returns and fails: [err != nil || !t.Valid]. *)
Definition fails_verification (m : ServiceProviderMiddleware)
    (tokenString : string) : Prop :=
  (∃ t e, jwt.Parse tokenString (secretKeyfunc m) = Return (t, Some e)) ∨
  (∃ t, jwt.Parse tokenString (secretKeyfunc m) = Return (Some t, None) ∧
        jwt.Valid t = false).

(** The token string is accepted as a session cookie by
    [DefaultIsAuthorized]. *)
Definition accepted_as_session (m : ServiceProviderMiddleware)
    (tokenString : string) : Prop :=
  ∃ r r' cookie,
    http.Request_Cookie r cookieName = Ok cookie ∧
    http.Value cookie = tokenString ∧
    DefaultIsAuthorized m r = Return (true, r').

(** The token string is accepted as relay state by [DefaultAuthorizeFunc]:
    the call returns and its response is not the refusal. *)
Definition accepted_as_relay_state (m : ServiceProviderMiddleware)
    (tokenString : string) : Prop :=
  ∃ w r assertionAttributes w',
    Values_Get (http.Form r) "RelayState" = tokenString ∧
    tokenString ≠ "" ∧
    DefaultAuthorizeFunc m w r assertionAttributes = Return w' ∧
    w' ≠ forbidden w.

(** The algorithm a token string declares in its header, if any. *)
Definition declared_alg (tokenString : string) : option string :=
  match strings.Split tokenString "." with
  | [p0; _; _] =>
      match jwt.DecodeJSONSegment p0 with
      | Ok header =>
          match header !! "alg" with
          | Some (VString alg) => Some alg
          | _ => None
          end
      | Err _ => None
      end
  | _ => None
  end.

(** The token string has three segments, declares a registered signing
    method, and its third segment is what that method accepts as the
    signature of the first two under the service provider's key. *)
Definition signed_under_declared_alg (m : ServiceProviderMiddleware)
    (tokenString : string) : Prop :=
  ∃ p0 p1 p2 alg method block,
    strings.Split tokenString "." = [p0; p1; p2] ∧
    declared_alg tokenString = Some alg ∧
    jwt.GetSigningMethod alg = Some method ∧
    pem.Decode (list_byte_of_string (Key (ServiceProvider m))) = Some block ∧
    jwt.Verify method (strings.Join [p0; p1] ".") p2 (pem.Bytes block) = None.

(** The string-valued entries of a list of claims. *)
Definition string_claims (claims : list (string * any))
    : list (string * string) :=
  omap (fun '(name, v) =>
          match v with VString c => Some (name, c) | _ => None end)
       claims.

(** The header set for one string-valued claim. *)
Definition set_trusted_header (header : gmap string (list string))
    (claim : string * string) : gmap string (list string) :=
  http.Header_Set header ("X-Saml-" +:+ claim.1) claim.2.

(** No header of the request has a name that starts with [X-Saml]. *)
Definition no_trusted_header (r : http.Request) : Prop :=
  ∀ name, is_Some (http.Header r !! name) →
          strings.HasPrefix name "X-Saml" = false.

(** The segment coding gives the object back. *)
Definition segment_roundtrips (object : gmap string any) : Prop :=
  jwt.DecodeJSONSegment (jwt.EncodeJSONSegment object) = Ok object ∧
  strings.free_of "." (jwt.EncodeJSONSegment object) = true.

(** What the round trip of a claim set under a secret needs of the
    library: HS256 is registered under its own name; the header and the
    claims decode to what was encoded, into segments without a dot; and
    signing the two segments with the secret gives a signature without a
    dot that the method accepts. *)
Definition well_coded (claims : gmap string any) (secret : bytes) : Prop :=
  ∃ method sig,
    jwt.GetSigningMethod "HS256" = Some method ∧
    jwt.Alg method = "HS256" ∧
    segment_roundtrips (jwt.new_Header method) ∧
    segment_roundtrips claims ∧
    jwt.Sign method
      (strings.Join [jwt.EncodeJSONSegment (jwt.new_Header method);
                     jwt.EncodeJSONSegment claims] ".") secret = Ok sig ∧
    jwt.Verify method
      (strings.Join [jwt.EncodeJSONSegment (jwt.new_Header method);
                     jwt.EncodeJSONSegment claims] ".") sig secret = None ∧
    strings.free_of "." sig = true.

(** Every header of the request named [X-Saml...] is the header of a
    string-valued claim among [claims] and holds exactly its value. *)
Definition trusted_headers_from (claims : gmap string any)
    (r : http.Request) : Prop :=
  ∀ key vals,
    http.Header r !! key = Some vals →
    strings.HasPrefix key "X-Saml" = true →
    ∃ name c,
      claims !! name = Some (VString c) ∧
      key = http.CanonicalHeaderKey ("X-Saml-" +:+ name) ∧
      vals = [c].

(** The calls a response gained over [w]. *)
Definition gained (w w' : http.ResponseWriter) (calls : list http.Call)
    : Prop := w' = (w ++ calls)%list.

End Middleware.

End saml.

(** ** Executable instances of the library classes

    Small stand-ins with the shape of the real functions, used to run the
    middleware on concrete requests.  A token segment is a list of
    [key:value~] entries in hexadecimal instead of base64url JSON; the MAC
    of a message is the text of its algorithm, key and message, so that two
    MACs agree exactly when these three agree; a PEM block is the text
    between a BEGIN and an END line. *)

Module Standin.

Definition hexdigit (n : N) : ascii :=
  match n with
  | 0%N => "0" | 1%N => "1" | 2%N => "2" | 3%N => "3" | 4%N => "4"
  | 5%N => "5" | 6%N => "6" | 7%N => "7" | 8%N => "8" | 9%N => "9"
  | 10%N => "a" | 11%N => "b" | 12%N => "c" | 13%N => "d" | 14%N => "e"
  | _ => "f"
  end%char.

Definition unhexdigit (c : ascii) : option N :=
  let n := N_of_ascii c in
  if ((48 <=? n) && (n <=? 57))%N then Some (n - 48)%N
  else if ((97 <=? n) && (n <=? 102))%N then Some (n - 87)%N
  else None.

Fixpoint hex (s : string) : string :=
  match s with
  | EmptyString => EmptyString
  | String c s' =>
      let n := N_of_ascii c in
      String (hexdigit (n / 16)) (String (hexdigit (n mod 16)) (hex s'))
  end.

Fixpoint unhex (s : string) : option string :=
  match s with
  | EmptyString => Some EmptyString
  | String a (String b s') =>
      match unhexdigit a, unhexdigit b, unhex s' with
      | Some x, Some y, Some r => Some (String (ascii_of_N (16 * x + y)) r)
      | _, _, _ => None
      end
  | String _ EmptyString => None
  end.

Definition encode_any (v : any) : string :=
  match v with
  | VString s => "s" +:+ hex s
  | VNumber n => "n" +:+ hex (DecimalString.NilZero.string_of_int (Z.to_int n))
  | VOther raw => "o" +:+ hex raw
  end.

Definition decode_any (s : string) : option any :=
  match s with
  | String "s" h => VString <$> unhex h
  | String "n" h =>
      d ← unhex h;
      VNumber <$> (Z.of_int <$> DecimalString.NilZero.int_of_string d)
  | String "o" h => VOther <$> unhex h
  | _ => None
  end.

Definition encode_entry (e : string * any) : string :=
  hex e.1 +:+ ":" +:+ encode_any e.2 +:+ "~".

Definition decode_entry (s : string) : option (string * any) :=
  match strings.Split s ":" with
  | [k; v] => k' ← unhex k; v' ← decode_any v; Some (k', v')
  | _ => None
  end.

Definition EncodeJSONSegment (m : gmap string any) : string :=
  fold_right (fun e acc => encode_entry e +:+ acc) "" (map_to_list m).

Definition DecodeJSONSegment (s : string) : result (gmap string any) :=
  let pieces := filter (fun p => p ≠ "") (strings.Split s "~") in
  match mapM decode_entry pieces with
  | Some entries => Ok (list_to_map entries)
  | None => Err "illegal segment"
  end.

(** The keyed MAC of the stand-in, one per hash name. *)
Definition mac (hash : string) (signingString : string) (key : bytes)
    : string :=
  hex hash +:+ "-" +:+ hex (string_of_list_byte key) +:+ "-" +:+
  hex signingString.

Definition SigningMethodHMAC (name hash : string) : jwt.SigningMethod :=
  {| jwt.Alg := name;
     jwt.Sign := fun signingString key => Ok (mac hash signingString key);
     jwt.Verify := fun signingString signature key =>
       if decide (signature = mac hash signingString key) then None
       else Some "signature is invalid" |}.

Definition GetSigningMethod (alg : string) : option jwt.SigningMethod :=
  if decide (alg = "HS256") then Some (SigningMethodHMAC "HS256" "SHA256")
  else if decide (alg = "HS384") then Some (SigningMethodHMAC "HS384" "SHA384")
  else if decide (alg = "HS512") then Some (SigningMethodHMAC "HS512" "SHA512")
  else None.

(** The clocks of the stand-in read 2023-11-14 22:13:20 UTC. *)
Definition now : time.Time := 1700000000 * time.Second.

#[local] Instance jwt_primitives : jwt.Primitives :=
  {| jwt.GetSigningMethod := GetSigningMethod;
     jwt.EncodeJSONSegment := EncodeJSONSegment;
     jwt.DecodeJSONSegment := DecodeJSONSegment;
     jwt.TimeFunc := now |}.

#[local] Instance map_range : MapRange :=
  {| range := fun V m => map_to_list m;
     range_Permutation := fun V m => reflexivity (map_to_list m) |}.

(** The text before and after the first occurrence of [sep]. *)
Definition cut (sep s : string) : option (string * string) :=
  match index 0 sep s with
  | Some i =>
      Some (substring 0 i s,
            substring (i + String.length sep) (String.length s) s)
  | None => None
  end.

Definition pem_Decode (data : bytes) : option pem.Block :=
  match cut "-----BEGIN KEY-----" (string_of_list_byte data) with
  | Some (_, after) =>
      match cut "-----END KEY-----" after with
      | Some (body, _) => Some {| pem.Bytes := list_byte_of_string body |}
      | None => None
      end
  | None => None
  end.

#[local] Instance pem_primitives : pem.Primitives :=
  {| pem.Decode := pem_Decode |}.

Definition url_Parse (s : string) : result url.URL :=
  if String.prefix ":" s then Err "missing protocol scheme"
  else
    let '(scheme, host, rest) :=
      match cut "://" s with
      | Some (scheme, after) =>
          match cut "/" after with
          | Some (host, path) => (scheme, host, "/" +:+ path)
          | None => (scheme, after, "")
          end
      | None => ("", "", s)
      end in
    match cut "?" rest with
    | Some (path, query) =>
        Ok {| url.Scheme := scheme; url.Host := host; url.Path := path;
              url.RawQuery := query |}
    | None =>
        Ok {| url.Scheme := scheme; url.Host := host; url.Path := rest;
              url.RawQuery := "" |}
    end.

Definition url_String (u : url.URL) : string :=
  (if decide (url.Scheme u = "") then "" else url.Scheme u +:+ ":") +:+
  (if decide (url.Scheme u = "" ∧ url.Host u = "") then ""
   else "//" +:+ url.Host u) +:+
  url.Path u +:+
  (if decide (url.RawQuery u = "") then "" else "?" +:+ url.RawQuery u).

#[local] Instance url_primitives : url.Primitives :=
  {| url.Parse := url_Parse; url.String := url_String |}.

Definition is_lower (c : ascii) : bool :=
  ((97 <=? N_of_ascii c) && (N_of_ascii c <=? 122))%N.
Definition is_upper (c : ascii) : bool :=
  ((65 <=? N_of_ascii c) && (N_of_ascii c <=? 90))%N.
Definition to_upper (c : ascii) : ascii :=
  if is_lower c then ascii_of_N (N_of_ascii c - 32) else c.
Definition to_lower (c : ascii) : ascii :=
  if is_upper c then ascii_of_N (N_of_ascii c + 32) else c.

Fixpoint canonical (upper : bool) (s : string) : string :=
  match s with
  | EmptyString => EmptyString
  | String c s' =>
      String (if upper then to_upper c else to_lower c)
             (canonical (Ascii.eqb c "-") s')
  end.

(** Header keys with a space are left as they are; in the others the
    first letter and each letter after a hyphen is upper case, the rest
    lower case. *)
Definition CanonicalHeaderKey (s : string) : string :=
  if strings.free_of " " s then canonical true s else s.

Fixpoint trim_left (s : string) : string :=
  match s with
  | String " " s' => trim_left s'
  | _ => s
  end.

Definition parse_cookie (part : string) : option http.Cookie :=
  match cut "=" (trim_left part) with
  | Some (name, value) =>
      Some {| http.Name := name; http.Value := value; http.Path := "";
              http.MaxAge := 0; http.HttpOnly := false |}
  | None => None
  end.

Definition readCookies (h : gmap string (list string)) (filter_name : string)
    : list http.Cookie :=
  filter (fun c => http.Name c = filter_name)
    (omap parse_cookie
       (concat (map (fun line => strings.Split line ";")
                    (default [] (h !! "Cookie"))))).

#[local] Instance http_primitives : http.Primitives :=
  {| http.CanonicalHeaderKey := CanonicalHeaderKey;
     http.readCookies := readCookies |}.

(** A service provider that knows its identity provider, and one whose
    identity-provider metadata has no redirect endpoint. *)
Definition MakeRedirectAuthenticationRequest (sp : saml.ServiceProviderT)
    (relayState : string) : result url.URL :=
  Ok {| url.Scheme := "https"; url.Host := "idp.example.com";
        url.Path := "/sso";
        url.RawQuery := "SAMLRequest=req&RelayState=" +:+ relayState |}.

#[local] Instance collaborators : saml.Collaborators :=
  {| saml.timeNow := now;
     saml.MakeRedirectAuthenticationRequest :=
       MakeRedirectAuthenticationRequest |}.

#[local] Instance collaborators_without_idp : saml.Collaborators :=
  {| saml.timeNow := now;
     saml.MakeRedirectAuthenticationRequest :=
       fun _ _ => Err "no redirect binding in the identity provider metadata" |}.

(** The token library with its clock two hours on. *)
#[local] Instance jwt_primitives_late : jwt.Primitives :=
  {| jwt.GetSigningMethod := GetSigningMethod;
     jwt.EncodeJSONSegment := EncodeJSONSegment;
     jwt.DecodeJSONSegment := DecodeJSONSegment;
     jwt.TimeFunc := now + 2 * time.Hour |}.

#[local] Instance form_parser : http.FormParser :=
  {| http.ParseForm := fun r => r |}.

(** The assertion verifier of the stand-in reads the form field
    [SAMLResponse]: [name=value] is a verified attribute, anything else an
    invalid response, and a missing field another error. *)
Definition ParseResponse (sp : saml.ServiceProviderT) (r : http.Request)
    (requestID : string) : saml.AssertionAttributes + saml.ResponseError :=
  match http.Form r !! "SAMLResponse" with
  | Some (response :: _) =>
      match cut "=" response with
      | Some (name, value) =>
          inl [ {| saml.FriendlyName := name; saml.Value := value |} ]
      | None =>
          inr (saml.InvalidResponseError response now
                 "cannot validate signature on Response")
      end
  | _ => inr (saml.OtherError "cannot parse base64")
  end.

#[local] Instance verifier : saml.Verifier :=
  {| saml.MetadataXML := fun sp =>
       "<EntityDescriptor entityID='" +:+ saml.MetadataURL sp +:+ "'/>";
     saml.ParseResponse := ParseResponse |}.

End Standin.

(** ** Concrete requests and tokens *)

Module Scenario.

#[local] Existing Instances Standin.jwt_primitives Standin.map_range
  Standin.pem_primitives Standin.url_primitives Standin.http_primitives.

Definition secret : bytes := list_byte_of_string "s3cret".

Definition sp : saml.ServiceProviderT :=
  {| saml.Key := "-----BEGIN KEY-----s3cret-----END KEY-----";
     saml.MetadataURL := "https://sp.example.com/saml/metadata";
     saml.AcsURL := "https://sp.example.com/saml/acs" |}.

(** The middleware with the default checks. *)
Definition m : saml.ServiceProviderMiddleware :=
  {| saml.ServiceProvider := sp;
     saml.IsAuthorizedFunc := None;
     saml.AuthorizeFunc := None |}.

(** A second middleware: another key, other paths. *)
Definition m2 : saml.ServiceProviderMiddleware :=
  {| saml.ServiceProvider :=
       {| saml.Key := "-----BEGIN KEY-----0ther-----END KEY-----";
          saml.MetadataURL := "https://two.example.com/metadata";
          saml.AcsURL := "https://two.example.com/acs" |};
     saml.IsAuthorizedFunc := None;
     saml.AuthorizeFunc := None |}.

(** A token of the given algorithm and claims, signed with [key]. *)
Definition signed (alg : string) (claims : gmap string any) (key : bytes)
    : string :=
  match (token ← jwt.New (jwt.GetSigningMethod alg);
         jwt.SignedString (jwt.with_Claims token claims) key) with
  | Return (Ok s) => s
  | _ => ""
  end.

Definition request (path query : string)
    (header form : gmap string (list string)) : http.Request :=
  {| http.URL := {| url.Scheme := ""; url.Host := ""; url.Path := path;
                    url.RawQuery := query |};
     http.Header := header;
     http.Form := form |}.

Definition session_cookie (tokenString : string)
    : gmap string (list string) :=
  {["Cookie" := ["token=" +:+ tokenString]]}.

Definition alice_claims : gmap string any :=
  <["uid" := VString "alice@example.com"]>
    (<["exp" := VNumber 1700003600]> ∅).

Definition alice_token : string := signed "HS256" alice_claims secret.

(** GET /protected?x=1 without a cookie. *)
Definition protected_request : http.Request :=
  request "/protected" "x=1" ∅ ∅.

(** The same with Alice's session cookie. *)
Definition alice_request : http.Request :=
  request "/protected" "x=1" (session_cookie alice_token) ∅.

(** No cookie, and an [X-Saml-Uid] header sent by the client. *)
Definition spoofed_request : http.Request :=
  request "/protected" "x=1" {["X-Saml-Uid" := ["admin"]]} ∅.

(** Alice's session cookie, and an [X-Saml-Uid] header sent by the client. *)
Definition spoofed_alice_request : http.Request :=
  request "/protected" "x=1"
    (<["X-Saml-Uid" := ["admin"]]> (session_cookie alice_token)) ∅.

(** A token whose header says HS384, signed with the secret under HS384. *)
Definition mallory_token : string :=
  signed "HS384" {["uid" := VString "mallory"]} secret.

Definition mallory_request : http.Request :=
  request "/protected" "x=1" (session_cookie mallory_token) ∅.

(** A claim set whose [exp] is the epoch. *)
Definition stale_claims : gmap string any :=
  <["uid" := VString "alice@example.com"]> (<["exp" := VNumber 0]> ∅).

(** A request to the callback path without a cookie. *)
Definition acs_request : http.Request := request "/saml/acs" "" ∅ ∅.

(** The callback with the relay state that [RequireAccountMiddleware]
    issues for [protected_request], with a relay state signed with another
    key, with a relay state that verifies but has no [uri] claim or a
    numeric one, and without relay state. *)
Definition callback (relayState : string) : http.Request :=
  request "/saml/acs" "" ∅ {["RelayState" := [relayState]]}.

Definition relay_state : string :=
  signed "HS256" {["uri" := VString "/protected?x=1"]} secret.
Definition forged_relay_state : string :=
  signed "HS256" {["uri" := VString "/admin"]} (list_byte_of_string "guess").
Definition relay_state_without_uri : string :=
  signed "HS256" {["foo" := VString "bar"]} secret.
Definition relay_state_numeric_uri : string :=
  signed "HS256" {["uri" := VNumber 7]} secret.
Definition callback_without_relay_state : http.Request :=
  request "/saml/acs" "" ∅ ∅.

Definition alice_attributes : saml.AssertionAttributes :=
  [ {| saml.FriendlyName := "uid"; saml.Value := "alice@example.com" |} ].

(** A handler that answers with the body "ok". *)
Definition handler : http.Handler :=
  fun w _ => Return (w ++ [http.WriteCall "ok"])%list.

(** A middleware whose key is not a PEM block. *)
Definition m_bad_key : saml.ServiceProviderMiddleware :=
  {| saml.ServiceProvider :=
       {| saml.Key := "s3cret";
          saml.MetadataURL := "https://sp.example.com/saml/metadata";
          saml.AcsURL := "https://sp.example.com/saml/acs" |};
     saml.IsAuthorizedFunc := None;
     saml.AuthorizeFunc := None |}.

(** A request whose trusted group header has two values. *)
Definition group_request : http.Request :=
  request "/staff" "" {["X-Saml-Group" := ["Students"; "Staff"]]} ∅.

(** A cookie whose value has two segments, and one whose header names an
    algorithm that is not registered. *)
Definition two_segment_request : http.Request :=
  request "/protected" "x=1" (session_cookie "abc.def") ∅.
Definition none_token : string :=
  jwt.EncodeJSONSegment {["alg" := VString "none"]} +:+ "." +:+
  jwt.EncodeJSONSegment {["uid" := VString "mallory"]} +:+ ".".
Definition none_request : http.Request :=
  request "/protected" "x=1" (session_cookie none_token) ∅.

(** The session token of Alice as [DefaultAuthorizeFunc] issues it. *)
Definition issued_token : string :=
  signed "HS256" (saml.session_claims (package := Standin.collaborators)
                    alice_attributes) secret.
Definition issued_request : http.Request :=
  request "/protected" "x=1" (session_cookie issued_token) ∅.

(** Requests to the endpoints of [ServeHTTP]: the metadata, the callback
    with a response that verifies (with and without relay state) and with
    one that does not, and another path. *)
Definition metadata_request : http.Request :=
  request "/saml/metadata" "" ∅ ∅.
Definition assertion_callback (response : string)
    (relayState : list string) : http.Request :=
  request "/saml/acs" "" ∅
    (<["SAMLResponse" := [response]]> {["RelayState" := relayState]}).
Definition other_request : http.Request := request "/favicon.ico" "" ∅ ∅.

(** The cookie as [r.Cookie] reads it from the [Cookie] header. *)
Definition sent_cookie (tokenString : string) : http.Cookie :=
  {| http.Name := "token"; http.Value := tokenString; http.Path := "";
     http.MaxAge := 0; http.HttpOnly := false |}.

(** An attribute set that names [uid] twice and has an attribute [exp]. *)
Definition repeated_attributes : saml.AssertionAttributes :=
  [ {| saml.FriendlyName := "uid"; saml.Value := "first@example.com" |};
    {| saml.FriendlyName := "exp"; saml.Value := "never" |};
    {| saml.FriendlyName := "uid"; saml.Value := "second@example.com" |} ].

End Scenario.

(** * Properties *)

Ltac exec_unfold := unfold mbind, Exec_bind, mret, Exec_ret in *.

Section Properties.
Context {go_map : MapRange} {url_lib : url.Primitives}
        {pem_lib : pem.Primitives} {http_lib : http.Primitives}
        {jwt_lib : jwt.Primitives} {package : saml.Collaborators}.

(** ** [DefaultIsAuthorized] *)

(** The three ways [DefaultIsAuthorized] ends: refusal with the request
    as it came, panic, or acceptance after the header scan and the copy of
    the claims. *)
Lemma DefaultIsAuthorized_cases (m : saml.ServiceProviderMiddleware)
    (r : http.Request) :
  saml.DefaultIsAuthorized m r = Return (false, r) ∨
  (∃ p, saml.DefaultIsAuthorized m r = Panic p) ∨
  (∃ cookie token,
     http.Request_Cookie r saml.cookieName = Ok cookie ∧
     saml.verifies m (http.Value cookie) token ∧
     saml.check_headers (range (http.Header r)) = Return tt ∧
     saml.DefaultIsAuthorized m r =
       Return (true,
               http.with_Header r
                 (saml.copy_claims (range (jwt.Claims token))
                    (http.Header r)))).
Proof.
  unfold saml.DefaultIsAuthorized, saml.verifies.
  destruct (http.Request_Cookie r saml.cookieName) as [cookie|e] eqn:Hc;
    [|by left].
  destruct (jwt.Parse (http.Value cookie) (saml.secretKeyfunc m))
    as [[token err]|p] eqn:HP; exec_unfold; [|right; left; eauto].
  destruct err as [e|]; [by left|].
  destruct token as [token|]; [|right; left; eauto].
  destruct (jwt.Valid token) eqn:Hvalid; simpl; [|by left].
  destruct (saml.check_headers (range (http.Header r))) as [[]|p] eqn:Hs;
    [|right; left; eauto].
  right; right. by exists cookie, token.
Qed.

Lemma check_headers_Return (headers : list (string * list string)) :
  saml.check_headers headers = Return tt ↔
  ∀ name vals, (name, vals) ∈ headers →
               strings.HasPrefix name "X-Saml" = false.
Proof.
  induction headers as [|[name vals] rest IH]; simpl.
  - split; [intros _ ? ? Hin; inversion Hin|done].
  - destruct (strings.HasPrefix name "X-Saml") eqn:Hp.
    + split; [done|]. intros Hall.
      specialize (Hall name vals (list_elem_of_here _ _)). congruence.
    + rewrite IH. split.
      * intros Hall n v [Heq|Hin]%elem_of_cons; [by simplify_eq|eauto].
      * intros Hall n v Hin. apply (Hall n v). by apply list_elem_of_further.
Qed.

Lemma check_headers_Panic (headers : list (string * list string))
    (name : string) (vals : list string) :
  (name, vals) ∈ headers →
  strings.HasPrefix name "X-Saml" = true →
  saml.check_headers headers =
    Panic (PanicString
      "X-Saml-* headers should not exist when this function is called").
Proof.
  induction headers as [|[n v] rest IH]; simpl; intros Hin Hp.
  - inversion Hin.
  - destruct (strings.HasPrefix n "X-Saml") eqn:Hn; [done|].
    apply elem_of_cons in Hin as [Heq|Hin]; [simplify_eq; congruence|eauto].
Qed.

Lemma elem_of_range {V : Type} (hm : gmap string V) (k : string) (v : V) :
  (k, v) ∈ range hm ↔ hm !! k = Some v.
Proof. by rewrite range_Permutation, elem_of_map_to_list. Qed.

Lemma check_headers_no_trusted_header (r : http.Request) :
  saml.check_headers (range (http.Header r)) = Return tt ↔
  saml.no_trusted_header r.
Proof.
  rewrite check_headers_Return. unfold saml.no_trusted_header. split.
  - intros Hall name [vals Hv]. apply (Hall name vals). by apply elem_of_range.
  - intros Hall name vals Hin%elem_of_range. apply Hall. eauto.
Qed.

(** C9: whenever [DefaultIsAuthorized] returns false (no cookie, a token
    that does not verify, an expired token), the request, and with it the
    header map, is the one that came in: no header is added. *)
Theorem C9_refusal_leaves_headers_unchanged
    (m : saml.ServiceProviderMiddleware) (r r' : http.Request) :
  saml.DefaultIsAuthorized m r = Return (false, r') →
  r' = r ∧ http.Header r' = http.Header r.
Proof.
  intros Hres.
  destruct (DefaultIsAuthorized_cases m r)
    as [Hf|[[p Hp]|(cookie & token & _ & _ & _ & Ht)]];
    rewrite Hres in *; by simplify_eq.
Qed.

(** [DefaultIsAuthorized] refuses when the cookie is missing. *)
Lemma DefaultIsAuthorized_no_cookie (m : saml.ServiceProviderMiddleware)
    (r : http.Request) (e : error) :
  http.Request_Cookie r saml.cookieName = Err e →
  saml.DefaultIsAuthorized m r = Return (false, r).
Proof. intros Hc. unfold saml.DefaultIsAuthorized. by rewrite Hc. Qed.

(** [DefaultIsAuthorized] refuses when the token of the cookie fails
    verification. *)
Lemma DefaultIsAuthorized_bad_cookie (m : saml.ServiceProviderMiddleware)
    (r : http.Request) (cookie : http.Cookie) :
  http.Request_Cookie r saml.cookieName = Ok cookie →
  saml.fails_verification m (http.Value cookie) →
  saml.DefaultIsAuthorized m r = Return (false, r).
Proof.
  intros Hc [(t & e & HP)|(t & HP & Hv)]; unfold saml.DefaultIsAuthorized;
    rewrite Hc, HP; exec_unfold; [done|]. by rewrite Hv.
Qed.

(** With a cookie that verifies, a header named [X-Saml...] makes
    [DefaultIsAuthorized] panic. *)
Lemma DefaultIsAuthorized_trusted_header_panics
    (m : saml.ServiceProviderMiddleware) (r : http.Request)
    (cookie : http.Cookie) (token : jwt.Token) (name : string)
    (vals : list string) :
  http.Request_Cookie r saml.cookieName = Ok cookie →
  saml.verifies m (http.Value cookie) token →
  http.Header r !! name = Some vals →
  strings.HasPrefix name "X-Saml" = true →
  saml.DefaultIsAuthorized m r =
    Panic (PanicString
      "X-Saml-* headers should not exist when this function is called").
Proof.
  intros Hc [HP Hv] Hh Hp. unfold saml.DefaultIsAuthorized.
  rewrite Hc, HP. exec_unfold. rewrite Hv. simpl.
  by rewrite (check_headers_Panic _ name vals)
    by (by apply elem_of_range || done).
Qed.

(** C2, as the code has it: a request with a header named [X-Saml...] but
    without a cookie, or with a cookie whose token fails verification, is
    refused with [false] and no panic; the header scan is not reached. *)
Theorem C2_trusted_header_without_valid_cookie_returns_false
    (m : saml.ServiceProviderMiddleware) (r : http.Request)
    (name : string) (vals : list string) :
  http.Header r !! name = Some vals →
  strings.HasPrefix name "X-Saml" = true →
  (∃ e, http.Request_Cookie r saml.cookieName = Err e) ∨
  (∃ cookie, http.Request_Cookie r saml.cookieName = Ok cookie ∧
             saml.fails_verification m (http.Value cookie)) →
  saml.DefaultIsAuthorized m r = Return (false, r).
Proof.
  intros _ _ [[e Hc]|(cookie & Hc & Hf)].
  - by eapply DefaultIsAuthorized_no_cookie.
  - by eapply DefaultIsAuthorized_bad_cookie.
Qed.

(** ** [jwt.Parse] *)

(** What a nil error of [jwt.Parse] means. *)
Lemma Parse_valid_inv (tokenString : string) (keyFunc : jwt.Keyfunc)
    (t : jwt.Token) :
  jwt.Parse tokenString keyFunc = Return (Some t, None) →
  ∃ p0 p1 p2 header claims alg method key,
    strings.Split tokenString "." = [p0; p1; p2] ∧
    jwt.DecodeJSONSegment p0 = Ok header ∧
    jwt.DecodeJSONSegment p1 = Ok claims ∧
    header !! "alg" = Some (VString alg) ∧
    jwt.GetSigningMethod alg = Some method ∧
    keyFunc {| jwt.Raw := tokenString; jwt.Method := Some method;
               jwt.Header := header; jwt.Claims := claims;
               jwt.Valid := false |} = Return (Ok key) ∧
    jwt.expired claims = false ∧
    jwt.not_valid_yet claims = false ∧
    jwt.Verify method (strings.Join [p0; p1] ".") p2 key = None ∧
    t = {| jwt.Raw := tokenString; jwt.Method := Some method;
           jwt.Header := header; jwt.Claims := claims; jwt.Valid := true |}.
Proof.
  unfold jwt.Parse. intros HP.
  destruct (strings.Split tokenString ".") as [|p0 [|p1 [|p2 [|]]]];
    try discriminate.
  destruct (jwt.DecodeJSONSegment p0) as [header|] eqn:Hh; [|discriminate].
  destruct (jwt.DecodeJSONSegment p1) as [claims|] eqn:Hc; [|discriminate].
  destruct (header !! "alg") as [[alg| |]|] eqn:Halg; try discriminate.
  destruct (jwt.GetSigningMethod alg) as [method|] eqn:Hm; [|discriminate].
  exec_unfold.
  destruct (keyFunc _) as [[key|]|] eqn:Hk; try discriminate.
  destruct (jwt.Verify method _ p2 key) eqn:Hv; [discriminate|].
  destruct (jwt.not_valid_yet claims) eqn:Hn; [discriminate|].
  destruct (jwt.expired claims) eqn:He; [discriminate|].
  simplify_eq. by exists p0, p1, p2, header, claims, alg, method, key.
Qed.

(** The converse: the conditions under which [jwt.Parse] accepts. *)
Lemma Parse_valid_intro (tokenString p0 p1 p2 : string)
    (keyFunc : jwt.Keyfunc) (header claims : gmap string any)
    (alg : string) (method : jwt.SigningMethod) (key : bytes) :
  strings.Split tokenString "." = [p0; p1; p2] →
  jwt.DecodeJSONSegment p0 = Ok header →
  jwt.DecodeJSONSegment p1 = Ok claims →
  header !! "alg" = Some (VString alg) →
  jwt.GetSigningMethod alg = Some method →
  (∀ t, keyFunc t = Return (Ok key)) →
  jwt.expired claims = false →
  jwt.not_valid_yet claims = false →
  jwt.Verify method (strings.Join [p0; p1] ".") p2 key = None →
  jwt.Parse tokenString keyFunc =
    Return (Some {| jwt.Raw := tokenString; jwt.Method := Some method;
                    jwt.Header := header; jwt.Claims := claims;
                    jwt.Valid := true |}, None).
Proof.
  intros Hs Hh Hc Halg Hm Hk He Hn Hv. unfold jwt.Parse.
  rewrite Hs, Hh, Hc, Halg, Hm, Hk. exec_unfold.
  by rewrite He, Hn, Hv.
Qed.

Lemma secretKeyfunc_Return (m : saml.ServiceProviderMiddleware)
    (t : jwt.Token) (key : bytes) :
  saml.secretKeyfunc m t = Return (Ok key) →
  ∃ block,
    pem.Decode (list_byte_of_string (saml.Key (saml.ServiceProvider m)))
      = Some block ∧
    key = pem.Bytes block.
Proof.
  unfold saml.secretKeyfunc, saml.Block_Bytes.
  destruct (pem.Decode _) as [block|]; exec_unfold; [|discriminate].
  intros; simplify_eq. by exists block.
Qed.

Lemma verifies_signed_under_declared_alg
    (m : saml.ServiceProviderMiddleware) (tokenString : string)
    (t : jwt.Token) :
  saml.verifies m tokenString t → saml.signed_under_declared_alg m tokenString.
Proof.
  intros [HP _].
  apply Parse_valid_inv in HP
    as (p0 & p1 & p2 & header & claims & alg & method & key & Hs & Hh & Hc &
        Halg & Hm & Hk & _ & _ & Hv & _).
  apply secretKeyfunc_Return in Hk as (block & Hb & ->).
  exists p0, p1, p2, alg, method, block. split_and!; try done.
  unfold saml.declared_alg. by rewrite Hs, Hh, Halg.
Qed.

(** ** [DefaultAuthorizeFunc] *)

Lemma fold_set_Claim (assertionAttributes : saml.AssertionAttributes)
    (t : jwt.Token) :
  fold_left
    (fun t attr =>
       jwt.set_Claim t (saml.FriendlyName attr) (VString (saml.Value attr)))
    assertionAttributes t =
  jwt.with_Claims t
    (fold_left
       (fun c attr =>
          <[saml.FriendlyName attr := VString (saml.Value attr)]> c)
       assertionAttributes (jwt.Claims t)).
Proof.
  revert t. induction assertionAttributes as [|attr rest IH]; intros t; simpl.
  - by destruct t.
  - by rewrite IH.
Qed.

Lemma Unix_Add_cookieMaxAge (t : time.Time) :
  time.Unix (time.Add t saml.cookieMaxAge) = time.Unix t + 3600.
Proof.
  unfold time.Unix, time.Add, saml.cookieMaxAge, time.Hour.
  by rewrite Z.div_add.
Qed.

Lemma set_cookie_and_redirect_session_response
    (m : saml.ServiceProviderMiddleware) (w : http.ResponseWriter)
    (r : http.Request) (assertionAttributes : saml.AssertionAttributes)
    (redirectURI : string) :
  saml.set_cookie_and_redirect m w r assertionAttributes
    (pem.Decode (list_byte_of_string (saml.Key (saml.ServiceProvider m))))
    redirectURI =
  saml.session_response m w assertionAttributes redirectURI.
Proof.
  unfold saml.set_cookie_and_redirect, saml.session_response, saml.encode.
  destruct (pem.Decode _) as [block|];
    destruct (jwt.GetSigningMethod "HS256") as [method|]; try done.
  simpl. exec_unfold. simpl. rewrite fold_set_Claim, Unix_Add_cookieMaxAge.
  unfold jwt.set_Claim, jwt.with_Claims, saml.session_claims,
    saml.attribute_claims; simpl.
  destruct (jwt.SignedString _ _) as [[signedToken|e]|p]; try done.
  unfold http.Redirect, http.SetCookie. by rewrite <- app_assoc.
Qed.

(** Without relay state [DefaultAuthorizeFunc] establishes the session and
    redirects to the root. *)
Lemma DefaultAuthorizeFunc_without_relay_state
    (m : saml.ServiceProviderMiddleware) (w : http.ResponseWriter)
    (r : http.Request) (assertionAttributes : saml.AssertionAttributes) :
  Values_Get (http.Form r) "RelayState" = "" →
  saml.DefaultAuthorizeFunc m w r assertionAttributes =
  saml.session_response m w assertionAttributes "/".
Proof.
  intros Hrs. unfold saml.DefaultAuthorizeFunc. rewrite Hrs.
  rewrite decide_False by (by intros ?).
  apply set_cookie_and_redirect_session_response.
Qed.

(** With a relay state that fails verification it refuses. *)
Lemma DefaultAuthorizeFunc_relay_state_rejected
    (m : saml.ServiceProviderMiddleware) (w : http.ResponseWriter)
    (r : http.Request) (assertionAttributes : saml.AssertionAttributes) :
  Values_Get (http.Form r) "RelayState" ≠ "" →
  saml.fails_verification m (Values_Get (http.Form r) "RelayState") →
  saml.DefaultAuthorizeFunc m w r assertionAttributes =
  Return (saml.forbidden w).
Proof.
  intros Hrs Hf. unfold saml.DefaultAuthorizeFunc.
  rewrite decide_True by done.
  destruct Hf as [(t & e & HP)|(t & HP & Hv)]; rewrite HP; exec_unfold;
    [done|]. by rewrite Hv.
Qed.

(** With a relay state that verifies it establishes the session and
    redirects to the [uri] claim, or panics when that claim is no string. *)
Lemma DefaultAuthorizeFunc_relay_state_verified
    (m : saml.ServiceProviderMiddleware) (w : http.ResponseWriter)
    (r : http.Request) (assertionAttributes : saml.AssertionAttributes)
    (t : jwt.Token) :
  Values_Get (http.Form r) "RelayState" ≠ "" →
  saml.verifies m (Values_Get (http.Form r) "RelayState") t →
  saml.DefaultAuthorizeFunc m w r assertionAttributes =
  match jwt.Claims t !! "uri" with
  | Some (VString redirectURI) =>
      saml.session_response m w assertionAttributes redirectURI
  | _ => Panic InterfaceConversion
  end.
Proof.
  intros Hrs [HP Hv]. unfold saml.DefaultAuthorizeFunc.
  rewrite decide_True by done. rewrite HP. exec_unfold. rewrite Hv. simpl.
  destruct (jwt.Claims t !! "uri") as [[uri| |]|]; try done.
  apply set_cookie_and_redirect_session_response.
Qed.

(** Every run of [DefaultAuthorizeFunc] on a request with relay state is
    one of the two. *)
Lemma relay_state_verifies_or_fails (m : saml.ServiceProviderMiddleware)
    (tokenString : string) :
  (∃ t, saml.verifies m tokenString t) ∨
  saml.fails_verification m tokenString ∨
  (∃ p, jwt.Parse tokenString (saml.secretKeyfunc m) = Panic p) ∨
  jwt.Parse tokenString (saml.secretKeyfunc m) = Return (None, None).
Proof.
  unfold saml.verifies, saml.fails_verification.
  destruct (jwt.Parse tokenString (saml.secretKeyfunc m))
    as [[[t|] [e|]]|p]; eauto 8.
  destruct (jwt.Valid t) eqn:Hv; eauto 8.
Qed.

Lemma session_response_Return (m : saml.ServiceProviderMiddleware)
    (w w' : http.ResponseWriter)
    (assertionAttributes : saml.AssertionAttributes) (redirectURI : string) :
  saml.session_response m w assertionAttributes redirectURI = Return w' ↔
  ∃ signedToken,
    saml.signs m (saml.session_claims assertionAttributes) signedToken ∧
    w' = (w ++ [http.SetCookieCall (saml.session_cookie signedToken);
                http.RedirectCall redirectURI 302])%list.
Proof.
  unfold saml.session_response, saml.signs, saml.Block_Bytes. split.
  - destruct (pem.Decode _) as [block|]; exec_unfold; [|done].
    destruct (saml.encode _ _) as [[signedToken|e]|p] eqn:He; try done.
    intros [= <-]. exists signedToken. split; [|done]. by exists block.
  - intros (signedToken & (block & -> & He) & ->). exec_unfold.
    by rewrite He.
Qed.

(** How [DefaultAuthorizeFunc] returns: with the refusal, or with the
    session response for some redirect target. *)
Lemma DefaultAuthorizeFunc_Return (m : saml.ServiceProviderMiddleware)
    (w w' : http.ResponseWriter) (r : http.Request)
    (assertionAttributes : saml.AssertionAttributes) :
  saml.DefaultAuthorizeFunc m w r assertionAttributes = Return w' →
  w' = saml.forbidden w ∨
  ∃ redirectURI,
    saml.session_response m w assertionAttributes redirectURI = Return w' ∧
    (Values_Get (http.Form r) "RelayState" = "" ∧ redirectURI = "/" ∨
     Values_Get (http.Form r) "RelayState" ≠ "" ∧
     ∃ t, saml.verifies m (Values_Get (http.Form r) "RelayState") t ∧
          jwt.Claims t !! "uri" = Some (VString redirectURI)).
Proof.
  intros Hres.
  destruct (decide (Values_Get (http.Form r) "RelayState" = "")) as [Hrs|Hrs].
  - rewrite DefaultAuthorizeFunc_without_relay_state in Hres by done.
    right. exists "/". eauto.
  - destruct (relay_state_verifies_or_fails m
                (Values_Get (http.Form r) "RelayState"))
      as [[t Hv]|[Hf|[[p HP]|HP]]].
    + rewrite (DefaultAuthorizeFunc_relay_state_verified _ _ _ _ t) in Hres
        by done.
      destruct (jwt.Claims t !! "uri") as [[uri| |]|] eqn:Huri; try done.
      right. exists uri. split; [done|]. right. split; [done|]. by exists t.
    + rewrite DefaultAuthorizeFunc_relay_state_rejected in Hres by done.
      left. by simplify_eq.
    + unfold saml.DefaultAuthorizeFunc in Hres.
      rewrite decide_True, HP in Hres by done. done.
    + unfold saml.DefaultAuthorizeFunc in Hres.
      rewrite decide_True, HP in Hres by done. done.
Qed.

(** C1, as the code has it: a token string accepted as session cookie by
    [DefaultIsAuthorized] or as relay state by [DefaultAuthorizeFunc] has
    three segments, names a registered signing method in its own header, and
    carries a signature which that method accepts under the key of the
    service provider.  The key is fixed by the server; the algorithm is the
    one the token declares, so a token without [alg] or with an unregistered
    one is rejected, and one that declares another registered algorithm is
    verified with that algorithm. *)
Theorem C1_accepted_token_verifies_under_its_declared_alg
    (m : saml.ServiceProviderMiddleware) (tokenString : string) :
  saml.accepted_as_session m tokenString ∨
  saml.accepted_as_relay_state m tokenString →
  saml.signed_under_declared_alg m tokenString.
Proof.
  intros [(r & r' & cookie & Hc & <- & Hres)|
          (w & r & attrs & w' & <- & Hne & Hres & Hnf)].
  - destruct (DefaultIsAuthorized_cases m r)
      as [Hf|[[p Hp]|(cookie' & token & Hc' & Hv & _ & Ht)]];
      rewrite Hres in *; simplify_eq.
    rewrite Hc in Hc'. simplify_eq.
    by eapply verifies_signed_under_declared_alg.
  - apply DefaultAuthorizeFunc_Return in Hres
      as [->|(uri & _ & [[Hrs _]|(_ & t & Hv & _)])]; try done.
    by eapply verifies_signed_under_declared_alg.
Qed.

(** C3: a relay state that is present and fails verification gets the 403
    response and nothing else (no cookie, no redirect); without a
    [RelayState] parameter the session is established and the redirect goes
    to the root. *)
Theorem C3_bad_relay_state_forbidden_absent_relay_state_root
    (m : saml.ServiceProviderMiddleware) (w : http.ResponseWriter)
    (r : http.Request) (assertionAttributes : saml.AssertionAttributes) :
  (Values_Get (http.Form r) "RelayState" ≠ "" →
   saml.fails_verification m (Values_Get (http.Form r) "RelayState") →
   saml.DefaultAuthorizeFunc m w r assertionAttributes =
     Return (w ++ [http.ErrorCall "Forbidden" 403])%list) ∧
  (http.Form r !! "RelayState" = None →
   (∀ signedToken,
      saml.signs m (saml.session_claims assertionAttributes) signedToken →
      saml.DefaultAuthorizeFunc m w r assertionAttributes =
        Return (w ++ [http.SetCookieCall (saml.session_cookie signedToken);
                      http.RedirectCall "/" 302])%list) ∧
   (∀ w', saml.DefaultAuthorizeFunc m w r assertionAttributes = Return w' →
      ∃ signedToken,
        w' = (w ++ [http.SetCookieCall (saml.session_cookie signedToken);
                    http.RedirectCall "/" 302])%list)).
Proof.
  split.
  - apply DefaultAuthorizeFunc_relay_state_rejected.
  - intros Habsent.
    assert (Values_Get (http.Form r) "RelayState" = "") as Hrs
      by (unfold Values_Get; by rewrite Habsent).
    rewrite DefaultAuthorizeFunc_without_relay_state by done. split.
    + intros signedToken Hs. apply session_response_Return. eauto.
    + intros w' (signedToken & _ & ->)%session_response_Return. eauto.
Qed.

(** C10: a relay state that verifies but has no [uri] claim, or one that is
    not a string, makes [DefaultAuthorizeFunc] panic on the type assertion;
    there is no 403 and no redirect. *)
Theorem C10_relay_state_without_string_uri_panics
    (m : saml.ServiceProviderMiddleware) (w : http.ResponseWriter)
    (r : http.Request) (assertionAttributes : saml.AssertionAttributes)
    (t : jwt.Token) :
  Values_Get (http.Form r) "RelayState" ≠ "" →
  saml.verifies m (Values_Get (http.Form r) "RelayState") t →
  (jwt.Claims t !! "uri" = None ∨
   ∃ v, jwt.Claims t !! "uri" = Some v ∧ ∀ s, v ≠ VString s) →
  saml.DefaultAuthorizeFunc m w r assertionAttributes =
    Panic InterfaceConversion.
Proof.
  intros Hrs Hv Huri.
  rewrite (DefaultAuthorizeFunc_relay_state_verified _ _ _ _ t) by done.
  destruct Huri as [->|(v & -> & Hv')]; [done|].
  destruct v as [s| |]; [by destruct (Hv' s)|done..].
Qed.

(** C7, as the code has it: whatever the middleware, a session that
    [DefaultAuthorizeFunc] establishes has a cookie with [Max-Age] 3600 and
    a token whose [exp] is the clock reading plus 3600 seconds; no field of
    the middleware enters either number. *)
Theorem C7_session_lifetime_is_fixed_at_one_hour
    (m : saml.ServiceProviderMiddleware) (w w' : http.ResponseWriter)
    (r : http.Request) (assertionAttributes : saml.AssertionAttributes) :
  saml.DefaultAuthorizeFunc m w r assertionAttributes = Return w' →
  w' ≠ saml.forbidden w →
  ∃ signedToken claims redirectURI cookie,
    w' = (w ++ [http.SetCookieCall cookie;
                http.RedirectCall redirectURI 302])%list ∧
    http.MaxAge cookie = 3600 ∧
    http.Value cookie = signedToken ∧
    saml.signs m claims signedToken ∧
    claims !! "exp" = Some (VNumber (time.Unix saml.timeNow + 3600)).
Proof.
  intros Hres Hnf.
  apply DefaultAuthorizeFunc_Return in Hres as [->|(uri & Hs & _)]; [done|].
  apply session_response_Return in Hs as (signedToken & Hs & ->).
  exists signedToken, (saml.session_claims assertionAttributes), uri,
    (saml.session_cookie signedToken).
  split_and!; try done. apply lookup_insert_eq.
Qed.

(** ** The token codec *)

Lemma append_nil (b : string) : "" +:+ b = b.
Proof. reflexivity. Qed.

Lemma append_cons (c : ascii) (a b : string) :
  String c a +:+ b = String c (a +:+ b).
Proof. reflexivity. Qed.

Lemma append_assoc (a b c : string) : (a +:+ b) +:+ c = a +:+ (b +:+ c).
Proof.
  induction a as [|x a IH]; [done|]. by rewrite !append_cons, IH.
Qed.

Lemma Split_free_of (sep : ascii) (s : string) :
  strings.free_of sep s = true → strings.Split s sep = [s].
Proof.
  induction s as [|c s IH]; simpl; [done|].
  intros [Hc Hs]%andb_prop. apply negb_true_iff in Hc.
  by rewrite Hc, IH.
Qed.

Lemma Split_append (sep : ascii) (a rest : string) :
  strings.free_of sep a = true →
  strings.Split (a +:+ String sep rest) sep = a :: strings.Split rest sep.
Proof.
  induction a as [|c a IH].
  - intros _. rewrite append_nil. simpl. by rewrite Ascii.eqb_refl.
  - intros [Hc Ha]%andb_prop. apply negb_true_iff in Hc.
    rewrite append_cons. simpl. by rewrite Hc, IH.
Qed.

Lemma Split_three_segments (p0 p1 p2 : string) :
  strings.free_of "." p0 = true →
  strings.free_of "." p1 = true →
  strings.free_of "." p2 = true →
  strings.Split (strings.Join [strings.Join [p0; p1] "."; p2] ".") "." =
  [p0; p1; p2].
Proof.
  intros H0' H1' H2'.
  change (strings.Join [strings.Join [p0; p1] "."; p2] ".")
    with ((p0 +:+ String "." p1) +:+ String "." p2).
  rewrite append_assoc.
  change (String "." p1 +:+ String "." p2) with (String "." (p1 +:+ String "." p2)).
  rewrite Split_append by done. rewrite Split_append by done.
  by rewrite Split_free_of.
Qed.

(** A well-coded claim set that is neither expired nor not yet valid is
    signed into a token that [jwt.Parse] accepts, with any key callback
    that returns the secret, and parses back to the same claims. *)
Lemma encode_Parse (claims : gmap string any) (secret : bytes)
    (keyFunc : jwt.Keyfunc) :
  saml.well_coded claims secret →
  (∀ t, keyFunc t = Return (Ok secret)) →
  jwt.expired claims = false →
  jwt.not_valid_yet claims = false →
  ∃ tokenString t,
    saml.encode claims secret = Return (Ok tokenString) ∧
    jwt.Parse tokenString keyFunc = Return (Some t, None) ∧
    jwt.Valid t = true ∧
    jwt.Claims t = claims.
Proof.
  intros (method & sig & Hm & Halg & [Hh Hhd] & [Hc Hcd] & Hsign & Hver & Hsd)
    Hk He Hn.
  eexists _, _. split_and!.
  - unfold saml.encode, jwt.New, jwt.SignedString, jwt.SigningString,
      jwt.with_Claims.
    rewrite Hm. exec_unfold. cbv beta iota.
    cbn [jwt.Method jwt.Header jwt.Claims]. by rewrite Hsign.
  - eapply (Parse_valid_intro _ _ _ _ _ _ _ "HS256" method secret);
      eauto using Split_three_segments.
    unfold jwt.new_Header. rewrite lookup_insert_ne by done.
    by rewrite lookup_insert_eq, Halg.
  - done.
  - done.
Qed.


(** A token the middleware signed verifies in the middleware. *)
Lemma signs_verifies (m : saml.ServiceProviderMiddleware)
    (claims : gmap string any) (tokenString : string) (block : pem.Block) :
  pem.Decode (list_byte_of_string (saml.Key (saml.ServiceProvider m)))
    = Some block →
  saml.encode claims (pem.Bytes block) = Return (Ok tokenString) →
  saml.well_coded claims (pem.Bytes block) →
  jwt.expired claims = false →
  jwt.not_valid_yet claims = false →
  ∃ t, saml.verifies m tokenString t ∧ jwt.Claims t = claims.
Proof.
  intros Hb Henc Hw He Hn.
  destruct (encode_Parse claims (pem.Bytes block) (saml.secretKeyfunc m))
    as (tokenString' & t & Henc' & HP & Hv & Hc); try done.
  { intros t. unfold saml.secretKeyfunc. by rewrite Hb. }
  rewrite Henc in Henc'. simplify_eq. by exists t.
Qed.

(** ** [RequireAccountMiddleware] *)

Lemma relay_state_claims_timeless (r : http.Request) :
  jwt.expired (saml.relay_state_claims r) = false ∧
  jwt.not_valid_yet (saml.relay_state_claims r) = false.
Proof.
  unfold jwt.expired, jwt.not_valid_yet, saml.relay_state_claims.
  by rewrite !lookup_singleton_ne.
Qed.

Lemma RequireAccountMiddleware_unauthorized_eq
    (m : saml.ServiceProviderMiddleware) (handler : http.Handler)
    (w : http.ResponseWriter) (r r' : http.Request) :
  saml.isAuthorized m r = Return (false, r') →
  saml.RequireAccountMiddleware m handler w r =
  (key ← saml.Block_Bytes
           (pem.Decode
              (list_byte_of_string (saml.Key (saml.ServiceProvider m))));
   signed ← saml.encode (saml.relay_state_claims r') key;
   match signed with
   | Err err => Panic (PanicError err)
   | Ok signedRelayState => saml.unauthorized_response m w r' signedRelayState
   end).
Proof.
  intros Hauth.
  unfold saml.RequireAccountMiddleware, saml.encode, saml.unauthorized_response.
  unfold saml.isAuthorized in Hauth. rewrite Hauth. exec_unfold.
  cbv beta iota. unfold jwt.New.
  destruct (pem.Decode _) as [block|];
    destruct (jwt.GetSigningMethod "HS256") as [method|]; done.
Qed.

(** What the guard does with a request that is not authorized, once the
    relay state is signed. *)
Lemma RequireAccountMiddleware_unauthorized
    (m : saml.ServiceProviderMiddleware) (handler : http.Handler)
    (w : http.ResponseWriter) (r r' : http.Request)
    (signedRelayState : string) :
  saml.isAuthorized m r = Return (false, r') →
  saml.signs m (saml.relay_state_claims r') signedRelayState →
  saml.RequireAccountMiddleware m handler w r =
  saml.unauthorized_response m w r' signedRelayState.
Proof.
  intros Hauth (block & Hb & Henc).
  rewrite (RequireAccountMiddleware_unauthorized_eq _ _ _ _ r') by done.
  rewrite Hb. exec_unfold. simpl. by rewrite Henc.
Qed.

(** When the guard returns on a request that is not authorized, the relay
    state was signed, and the response is the 500 of a failed redirect
    request or the redirect, the latter off the callback path only. *)
Lemma RequireAccountMiddleware_unauthorized_Return
    (m : saml.ServiceProviderMiddleware) (handler : http.Handler)
    (w w' : http.ResponseWriter) (r r' : http.Request) :
  saml.isAuthorized m r = Return (false, r') →
  saml.RequireAccountMiddleware m handler w r = Return w' →
  ∃ signedRelayState,
    saml.signs m (saml.relay_state_claims r') signedRelayState ∧
    ((∃ e, saml.MakeRedirectAuthenticationRequest (saml.ServiceProvider m)
             signedRelayState = Err e ∧
           w' = (w ++ [http.ErrorCall e 500])%list) ∨
     (∃ redirectURL acsURL,
        saml.MakeRedirectAuthenticationRequest (saml.ServiceProvider m)
          signedRelayState = Ok redirectURL ∧
        url.Parse (saml.AcsURL (saml.ServiceProvider m)) = Ok acsURL ∧
        url.Path (http.URL r') ≠ url.Path acsURL ∧
        w' = (w ++ [http.RedirectCall (url.String redirectURL) 302])%list)).
Proof.
  intros Hauth Hres.
  rewrite (RequireAccountMiddleware_unauthorized_eq _ _ _ _ r') in Hres
    by done.
  unfold saml.signs.
  destruct (pem.Decode _) as [block|]; [|done]. exec_unfold. simpl in Hres.
  destruct (saml.encode _ _) as [[signedRelayState|e]|p] eqn:Henc;
    try done.
  exists signedRelayState. split; [by exists block|].
  unfold saml.unauthorized_response in Hres.
  destruct (saml.MakeRedirectAuthenticationRequest _ _)
    as [redirectURL|e]; [|left; exists e; by simplify_eq].
  destruct (url.Parse _) as [acsURL|]; [|done].
  case_decide; [done|]. right. exists redirectURL, acsURL.
  by simplify_eq.
Qed.

(** C4, as the code has it: for a request that is not authorized and is
    not for the callback path, once the relay state with the claim [uri]
    set to the request URI is signed with the key of the service provider,
    the guard answers with a 302 to the URL the assertion verifier builds
    for that relay state, and with a 500 carrying the verifier's error when
    it builds none; the relay state verifies with the same key and its
    [uri] claim is the request URI. *)
Theorem C4_unauthorized_request_is_redirected_with_relay_state
    (m : saml.ServiceProviderMiddleware) (handler : http.Handler)
    (w : http.ResponseWriter) (r r' : http.Request) (acsURL : url.URL)
    (signedRelayState : string) :
  saml.isAuthorized m r = Return (false, r') →
  url.Parse (saml.AcsURL (saml.ServiceProvider m)) = Ok acsURL →
  url.Path (http.URL r') ≠ url.Path acsURL →
  saml.signs m (saml.relay_state_claims r') signedRelayState →
  (∀ redirectURL,
     saml.MakeRedirectAuthenticationRequest (saml.ServiceProvider m)
       signedRelayState = Ok redirectURL →
     saml.RequireAccountMiddleware m handler w r =
       Return (w ++ [http.RedirectCall (url.String redirectURL) 302])%list) ∧
  (∀ e,
     saml.MakeRedirectAuthenticationRequest (saml.ServiceProvider m)
       signedRelayState = Err e →
     saml.RequireAccountMiddleware m handler w r =
       Return (w ++ [http.ErrorCall e 500])%list) ∧
  (∀ block,
     pem.Decode (list_byte_of_string (saml.Key (saml.ServiceProvider m)))
       = Some block →
     saml.well_coded (saml.relay_state_claims r') (pem.Bytes block) →
     ∃ t, saml.verifies m signedRelayState t ∧
          jwt.Claims t !! "uri" = Some (VString (url.String (http.URL r')))).
Proof.
  intros Hauth Hacs Hpath Hs. split_and!.
  - intros redirectURL Hr.
    rewrite (RequireAccountMiddleware_unauthorized _ _ _ _ r'
               signedRelayState) by done.
    unfold saml.unauthorized_response. rewrite Hr, Hacs. by rewrite decide_False.
  - intros e Hr.
    rewrite (RequireAccountMiddleware_unauthorized _ _ _ _ r'
               signedRelayState) by done.
    unfold saml.unauthorized_response. by rewrite Hr.
  - intros block Hb Hw. destruct Hs as (block' & Hb' & Henc).
    rewrite Hb in Hb'. simplify_eq.
    destruct (relay_state_claims_timeless r') as [He Hn].
    destruct (signs_verifies m (saml.relay_state_claims r')
                signedRelayState block') as (t & Hv & Hc); try done.
    exists t. split; [done|]. rewrite Hc.
    unfold saml.relay_state_claims. apply lookup_singleton_eq.
Qed.

(** C8, as the code has it: a request that is not authorized and is for
    the callback path never gets a redirect.  Once the relay state is
    signed, the guard panics with the loop message when the assertion
    verifier builds the redirect URL, and answers 500 when it does not; if
    the guard returns at all, the response is that 500. *)
Theorem C8_unauthorized_callback_request_is_never_redirected
    (m : saml.ServiceProviderMiddleware) (handler : http.Handler)
    (w : http.ResponseWriter) (r r' : http.Request) (acsURL : url.URL) :
  saml.isAuthorized m r = Return (false, r') →
  url.Parse (saml.AcsURL (saml.ServiceProvider m)) = Ok acsURL →
  url.Path (http.URL r') = url.Path acsURL →
  (∀ signedRelayState redirectURL,
     saml.signs m (saml.relay_state_claims r') signedRelayState →
     saml.MakeRedirectAuthenticationRequest (saml.ServiceProvider m)
       signedRelayState = Ok redirectURL →
     saml.RequireAccountMiddleware m handler w r =
       Panic (PanicString
         "don't wrap ServiceProviderMiddleware with RequireAccountMiddleware")) ∧
  (∀ signedRelayState e,
     saml.signs m (saml.relay_state_claims r') signedRelayState →
     saml.MakeRedirectAuthenticationRequest (saml.ServiceProvider m)
       signedRelayState = Err e →
     saml.RequireAccountMiddleware m handler w r =
       Return (w ++ [http.ErrorCall e 500])%list) ∧
  (∀ w', saml.RequireAccountMiddleware m handler w r = Return w' →
     ∃ e, w' = (w ++ [http.ErrorCall e 500])%list).
Proof.
  intros Hauth Hacs Hpath. split_and!.
  - intros signedRelayState redirectURL Hs Hr.
    rewrite (RequireAccountMiddleware_unauthorized _ _ _ _ r'
               signedRelayState) by done.
    unfold saml.unauthorized_response. rewrite Hr, Hacs. by rewrite decide_True.
  - intros signedRelayState e Hs Hr.
    rewrite (RequireAccountMiddleware_unauthorized _ _ _ _ r'
               signedRelayState) by done.
    unfold saml.unauthorized_response. by rewrite Hr.
  - intros w' Hres.
    destruct (RequireAccountMiddleware_unauthorized_Return m handler w w' r r')
      as (tok & _ & [(e & _ & ->)|(u & acs & _ & Hacs' & Hne & _)]);
      try done; [by exists e|].
    rewrite Hacs in Hacs'. by simplify_eq.
Qed.

(** ** The trusted headers *)

Lemma copy_claims_fold (claims : list (string * any))
    (header : gmap string (list string)) :
  saml.copy_claims claims header =
  fold_left saml.set_trusted_header (saml.string_claims claims) header.
Proof.
  revert header. induction claims as [|[name v] rest IH]; intros header;
    [done|].
  destruct v as [c| |]; simpl; by rewrite IH.
Qed.

Lemma elem_of_string_claims (claims : list (string * any))
    (name c : string) :
  (name, c) ∈ saml.string_claims claims ↔ (name, VString c) ∈ claims.
Proof.
  unfold saml.string_claims. rewrite list_elem_of_omap. split.
  - intros ([name' v] & Hin & Hv). destruct v; by simplify_eq.
  - intros Hin. by exists (name, VString c).
Qed.

(** A header that holds [[c]] keeps it through the sets of a list of claims
    of which those for the same header carry [c]. *)
Lemma fold_set_trusted_header_keeps (claims : list (string * string))
    (header : gmap string (list string)) (key c : string) :
  (∀ name' c', (name', c') ∈ claims →
     http.CanonicalHeaderKey ("X-Saml-" +:+ name') = key → c' = c) →
  header !! key = Some [c] →
  fold_left saml.set_trusted_header claims header !! key = Some [c].
Proof.
  revert header. induction claims as [|[n0 c0] rest IH]; intros header Hall Hh;
    [done|].
  simpl. apply IH.
  - intros name' c' Hin. apply Hall. by apply list_elem_of_further.
  - unfold saml.set_trusted_header, http.Header_Set. simpl.
    destruct (decide (http.CanonicalHeaderKey ("X-Saml-" +:+ n0) = key))
      as [Heq|Hne].
    + rewrite (Hall n0 c0 (list_elem_of_here _ _) Heq), <- Heq.
      apply lookup_insert_eq.
    + by rewrite lookup_insert_ne.
Qed.

(** After the sets of a list of claims, the header of a claim of the list
    holds its value, when the claims for the same header agree on it. *)
Lemma fold_set_trusted_header_lookup (claims : list (string * string))
    (header : gmap string (list string)) (name c : string) :
  (name, c) ∈ claims →
  (∀ name' c', (name', c') ∈ claims →
     http.CanonicalHeaderKey ("X-Saml-" +:+ name') =
     http.CanonicalHeaderKey ("X-Saml-" +:+ name) → c' = c) →
  fold_left saml.set_trusted_header claims header
    !! http.CanonicalHeaderKey ("X-Saml-" +:+ name) = Some [c].
Proof.
  revert header. induction claims as [|[n0 c0] rest IH]; intros header Hin Hall;
    [inversion Hin|].
  apply elem_of_cons in Hin as [Heq|Hin]; simpl.
  - simplify_eq. apply fold_set_trusted_header_keeps.
    + intros name' c' Hin'. apply Hall. by apply list_elem_of_further.
    + apply lookup_insert_eq.
  - apply IH; [done|].
    intros name' c' Hin'. apply Hall. by apply list_elem_of_further.
Qed.

(** A header either is as before the sets, or is the header of a claim of
    the list and holds the value of such a claim. *)
Lemma fold_set_trusted_header_frame (claims : list (string * string))
    (header : gmap string (list string)) (key : string) :
  fold_left saml.set_trusted_header claims header !! key = header !! key ∨
  ∃ name c,
    (name, c) ∈ claims ∧
    key = http.CanonicalHeaderKey ("X-Saml-" +:+ name) ∧
    fold_left saml.set_trusted_header claims header !! key = Some [c].
Proof.
  revert header. induction claims as [|[n0 c0] rest IH]; intros header;
    [by left|].
  simpl. destruct (IH (saml.set_trusted_header header (n0, c0)))
    as [Hsame|(name & c & Hin & Hkey & Hl)].
  - rewrite Hsame. unfold saml.set_trusted_header, http.Header_Set. simpl.
    destruct (decide (http.CanonicalHeaderKey ("X-Saml-" +:+ n0) = key))
      as [Heq|Hne].
    + right. exists n0, c0. rewrite <- Heq, lookup_insert_eq.
      split_and!; [apply list_elem_of_here|done..].
    + left. by rewrite lookup_insert_ne.
  - right. exists name, c. split_and!; [by apply list_elem_of_further|done..].
Qed.

(** C5: with a session cookie that verifies, on a request without headers
    named [X-Saml...], [DefaultIsAuthorized] returns true and leaves the
    request with its headers after one [Set] of [X-Saml-<ClaimName>] to the
    claim value for each string-valued claim of the token, and for no other
    claim.  So the header of a string-valued claim, looked up in the
    case-insensitive way of [Get], holds the claim value, unless another
    string-valued claim has the same header name up to case; and a header
    that differs from the one that came in holds the value of a
    string-valued claim. *)
Theorem C5_string_claims_become_trusted_headers
    (m : saml.ServiceProviderMiddleware) (r : http.Request)
    (cookie : http.Cookie) (token : jwt.Token) :
  http.Request_Cookie r saml.cookieName = Ok cookie →
  saml.verifies m (http.Value cookie) token →
  saml.no_trusted_header r →
  ∃ r',
    saml.DefaultIsAuthorized m r = Return (true, r') ∧
    http.Header r' =
      fold_left saml.set_trusted_header
        (saml.string_claims (range (jwt.Claims token))) (http.Header r) ∧
    (∀ name c,
       (name, c) ∈ saml.string_claims (range (jwt.Claims token)) ↔
       jwt.Claims token !! name = Some (VString c)) ∧
    (∀ name c,
       jwt.Claims token !! name = Some (VString c) →
       (∀ name' c',
          jwt.Claims token !! name' = Some (VString c') →
          http.CanonicalHeaderKey ("X-Saml-" +:+ name') =
          http.CanonicalHeaderKey ("X-Saml-" +:+ name) → name' = name) →
       http.Header_Get (http.Header r') ("X-Saml-" +:+ name) = c) ∧
    (∀ key,
       http.Header r' !! key = http.Header r !! key ∨
       ∃ name c,
         jwt.Claims token !! name = Some (VString c) ∧
         key = http.CanonicalHeaderKey ("X-Saml-" +:+ name) ∧
         http.Header r' !! key = Some [c]).
Proof.
  intros Hc Hv Hno.
  assert (∀ name c,
            (name, c) ∈ saml.string_claims (range (jwt.Claims token)) ↔
            jwt.Claims token !! name = Some (VString c)) as Hmem.
  { intros name c. by rewrite elem_of_string_claims, elem_of_range. }
  eexists. split_and!.
  - unfold saml.DefaultIsAuthorized. destruct Hv as [HP Hvalid].
    rewrite Hc, HP. exec_unfold. rewrite Hvalid. simpl.
    apply check_headers_no_trusted_header in Hno. by rewrite Hno.
  - simpl. apply copy_claims_fold.
  - done.
  - intros name c Hname Huniq. unfold http.Header_Get. simpl.
    rewrite copy_claims_fold.
    rewrite (fold_set_trusted_header_lookup _ _ name c); [done|by apply Hmem|].
    intros name' c' Hin%Hmem Hkey.
    rewrite (Huniq name' c' Hin Hkey) in Hin. congruence.
  - intros key. simpl. rewrite copy_claims_fold.
    destruct (fold_set_trusted_header_frame
                (saml.string_claims (range (jwt.Claims token)))
                (http.Header r) key)
      as [Hsame|(name & c & Hin%Hmem & Hkey & Hl)]; [by left|].
    right. by exists name, c.
Qed.

End Properties.

(** * The properties at concrete requests *)

Section Concrete.
Import Scenario.
#[local] Existing Instances Standin.jwt_primitives Standin.map_range
  Standin.pem_primitives Standin.url_primitives Standin.http_primitives
  Standin.collaborators.

Ltac run := vm_compute; reflexivity.
Ltac run_well_coded :=
  exists (Standin.SigningMethodHMAC "HS256" "SHA256"); eexists;
  unfold saml.segment_roundtrips; split_and!; run.

(** A token whose header names HS384, signed with the secret under HS384,
    is accepted as a session: the claim of C1 fails there. *)
Lemma C1_counterexample :
  saml.declared_alg mallory_token = Some "HS384" ∧
  (∃ cookie,
     http.Request_Cookie mallory_request saml.cookieName = Ok cookie ∧
     http.Value cookie = mallory_token) ∧
  (∃ r',
     saml.DefaultIsAuthorized m mallory_request = Return (true, r') ∧
     http.Header_Get (http.Header r') "X-Saml-Uid" = "mallory").
Proof.
  split_and!; [run| |].
  - eexists. split; run.
  - eexists. split; run.
Qed.

Lemma C1_witness :
  (saml.accepted_as_session m mallory_token ∨
   saml.accepted_as_relay_state m mallory_token) ∧
  saml.signed_under_declared_alg m mallory_token.
Proof.
  assert (saml.accepted_as_session m mallory_token) as Hacc.
  { exists mallory_request. eexists _, _. split_and!; run. }
  split; [by left|].
  apply (C1_accepted_token_verifies_under_its_declared_alg m mallory_token).
  by left.
Defined.

(** A request with an [X-Saml-Uid] header and no cookie is refused with
    [false]; it does not panic. *)
Lemma C2_witness :
  http.Header spoofed_request !! "X-Saml-Uid" = Some ["admin"] ∧
  strings.HasPrefix "X-Saml-Uid" "X-Saml" = true ∧
  (∃ e, http.Request_Cookie spoofed_request saml.cookieName = Err e) ∧
  saml.DefaultIsAuthorized m spoofed_request = Return (false, spoofed_request).
Proof.
  assert (∃ e, http.Request_Cookie spoofed_request saml.cookieName = Err e)
    as Hc by (eexists; run).
  split_and!; [run|run|done|].
  apply (C2_trusted_header_without_valid_cookie_returns_false
           m spoofed_request "X-Saml-Uid" ["admin"]); [run|run|by left].
Defined.

(** The same header with Alice's valid cookie makes it panic. *)
Lemma spoofed_alice_request_panics :
  saml.DefaultIsAuthorized m spoofed_alice_request =
    Panic (PanicString
      "X-Saml-* headers should not exist when this function is called").
Proof. run. Qed.

Lemma C3_witness :
  (Values_Get (http.Form (callback forged_relay_state)) "RelayState" ≠ "" ∧
   saml.fails_verification m
     (Values_Get (http.Form (callback forged_relay_state)) "RelayState") ∧
   saml.DefaultAuthorizeFunc m [] (callback forged_relay_state)
     alice_attributes = Return [http.ErrorCall "Forbidden" 403]) ∧
  (http.Form callback_without_relay_state !! "RelayState" = None ∧
   saml.signs m (saml.session_claims alice_attributes) alice_token ∧
   saml.DefaultAuthorizeFunc m [] callback_without_relay_state
     alice_attributes =
     Return [http.SetCookieCall (saml.session_cookie alice_token);
             http.RedirectCall "/" 302]).
Proof.
  assert (Values_Get (http.Form (callback forged_relay_state)) "RelayState"
            ≠ "") as Hne by (vm_compute; discriminate).
  assert (saml.fails_verification m
            (Values_Get (http.Form (callback forged_relay_state))
               "RelayState")) as Hf
    by (left; eexists _, _; run).
  assert (saml.signs m (saml.session_claims alice_attributes) alice_token)
    as Hs by (eexists; split; run).
  refine (conj (conj Hne (conj Hf _)) (conj eq_refl (conj Hs _))).
  - apply (C3_bad_relay_state_forbidden_absent_relay_state_root m []
             (callback forged_relay_state) alice_attributes); done.
  - apply (C3_bad_relay_state_forbidden_absent_relay_state_root m []
             callback_without_relay_state alice_attributes); done.
Defined.

(** With a service provider that cannot build the redirect request, the
    guard answers the request for /protected?x=1, which has no cookie and
    is not for the callback path, with a 500: the claim of C4 fails
    there. *)
Lemma C4_counterexample :
  saml.isAuthorized m protected_request = Return (false, protected_request) ∧
  url.Parse (saml.AcsURL (saml.ServiceProvider m)) =
    Ok {| url.Scheme := "https"; url.Host := "sp.example.com";
          url.Path := "/saml/acs"; url.RawQuery := "" |} ∧
  url.Path (http.URL protected_request) ≠ "/saml/acs" ∧
  saml.RequireAccountMiddleware
    (package := Standin.collaborators_without_idp) m handler []
    protected_request =
    Return [http.ErrorCall
              "no redirect binding in the identity provider metadata" 500].
Proof. split_and!; [run|run|vm_compute; discriminate|run]. Qed.

Lemma C4_witness :
  saml.isAuthorized m protected_request = Return (false, protected_request) ∧
  url.Parse (saml.AcsURL (saml.ServiceProvider m)) =
    Ok {| url.Scheme := "https"; url.Host := "sp.example.com";
          url.Path := "/saml/acs"; url.RawQuery := "" |} ∧
  url.Path (http.URL protected_request) ≠ "/saml/acs" ∧
  saml.signs m (saml.relay_state_claims protected_request) relay_state ∧
  saml.RequireAccountMiddleware m handler [] protected_request =
    Return [http.RedirectCall
              ("https://idp.example.com/sso?SAMLRequest=req&RelayState="
               +:+ relay_state) 302] ∧
  ∃ t, saml.verifies m relay_state t ∧
       jwt.Claims t !! "uri" = Some (VString "/protected?x=1").
Proof.
  assert (saml.isAuthorized m protected_request =
            Return (false, protected_request)) as Hauth by run.
  assert (url.Path (http.URL protected_request) ≠ "/saml/acs") as Hpath
    by (vm_compute; discriminate).
  assert (saml.signs m (saml.relay_state_claims protected_request)
            relay_state) as Hs by (eexists; split; run).
  assert (url.Parse (saml.AcsURL (saml.ServiceProvider m)) =
            Ok {| url.Scheme := "https"; url.Host := "sp.example.com";
                  url.Path := "/saml/acs"; url.RawQuery := "" |}) as Hacs
    by run.
  destruct (C4_unauthorized_request_is_redirected_with_relay_state
              m handler [] protected_request protected_request _
              relay_state Hauth Hacs Hpath Hs) as (Hok & _ & Hdec).
  refine (conj Hauth (conj Hacs (conj Hpath (conj Hs (conj _ _))))).
  - rewrite (Hok {| url.Scheme := "https"; url.Host := "idp.example.com";
                    url.Path := "/sso";
                    url.RawQuery :=
                      "SAMLRequest=req&RelayState=" +:+ relay_state |});
      run.
  - destruct (Hdec {| pem.Bytes := secret |}) as (t & Hv & Huri);
      [run|run_well_coded|].
    exists t. split; [exact Hv|]. rewrite Huri. run.
Defined.

Lemma alice_request_no_trusted_header : saml.no_trusted_header alice_request.
Proof.
  intros name [vals Hl]. simpl in Hl. unfold session_cookie in Hl.
  apply lookup_singleton_Some in Hl as [<- _]. run.
Qed.

Lemma C5_witness :
  (∃ cookie token,
     http.Request_Cookie alice_request saml.cookieName = Ok cookie ∧
     saml.verifies m (http.Value cookie) token ∧
     jwt.Claims token = alice_claims) ∧
  saml.no_trusted_header alice_request ∧
  ∃ r',
    saml.DefaultIsAuthorized m alice_request = Return (true, r') ∧
    http.Header_Get (http.Header r') "X-Saml-uid" = "alice@example.com" ∧
    http.Header r' !! "X-Saml-Exp" = None.
Proof.
  assert (∃ cookie token,
            http.Request_Cookie alice_request saml.cookieName = Ok cookie ∧
            saml.verifies m (http.Value cookie) token ∧
            jwt.Claims token = alice_claims) as Hex.
  { eexists _, _. split_and!; [run|split; run|run]. }
  refine (conj Hex (conj alice_request_no_trusted_header _)).
  destruct Hex as (cookie & token & Hc & Hv & Hcl).
  destruct (C5_string_claims_become_trusted_headers m alice_request cookie
              token Hc Hv alice_request_no_trusted_header)
    as (r' & Hres & _ & Hmem & Hget & Hframe).
  rewrite Hcl in Hmem, Hget, Hframe.
  assert (∀ name c,
            alice_claims !! name = Some (VString c) →
            name = "uid" ∧ c = "alice@example.com") as Honly.
  { intros name c Hin. apply Hmem in Hin. vm_compute in Hin.
    apply list_elem_of_singleton in Hin. injection Hin as -> ->.
    split; reflexivity. }
  exists r'. refine (conj Hres (conj _ _)).
  - apply Hget; [run|].
    intros name' c' Hin _. exact (proj1 (Honly name' c' Hin)).
  - destruct (Hframe "X-Saml-Exp") as [Hsame|(name & c & Hin & Hkey & _)].
    + rewrite Hsame. run.
    + exfalso. destruct (Honly name c Hin) as [-> _].
      vm_compute in Hkey. discriminate Hkey.
Defined.

(** Alice's session cookie verifies, with the string claim [uid], but the
    request also carries an [X-Saml-Uid] header: [DefaultIsAuthorized]
    panics and so does not return true; the claim of C5 fails there. *)
Lemma C5_counterexample :
  (∃ token,
     http.Request_Cookie spoofed_alice_request saml.cookieName
       = Ok (sent_cookie alice_token) ∧
     saml.verifies m (http.Value (sent_cookie alice_token)) token ∧
     jwt.Claims token !! "uid" = Some (VString "alice@example.com")) ∧
  http.Header spoofed_alice_request !! "X-Saml-Uid" = Some ["admin"] ∧
  saml.DefaultIsAuthorized m spoofed_alice_request =
    Panic (PanicString
      "X-Saml-* headers should not exist when this function is called") ∧
  ∀ r', saml.DefaultIsAuthorized m spoofed_alice_request ≠ Return (true, r').
Proof.
  assert (saml.DefaultIsAuthorized m spoofed_alice_request =
            Panic (PanicString
              "X-Saml-* headers should not exist when this function is called"))
    as Hpanic by run.
  split_and!.
  - eexists. split_and!; [run|split; run|run].
  - run.
  - exact Hpanic.
  - intros r' Hres. rewrite Hpanic in Hres. discriminate Hres.
Qed.



(** Two middlewares, with different keys and paths, both issue a cookie of
    3600 seconds. *)
Lemma C7_witness :
  (∃ w' : http.ResponseWriter,
     saml.DefaultAuthorizeFunc m [] callback_without_relay_state
       alice_attributes = Return w' ∧
     w' ≠ saml.forbidden [] ∧
     ∃ cookie redirectURI,
       w' = [http.SetCookieCall cookie; http.RedirectCall redirectURI 302] ∧
       http.MaxAge cookie = 3600) ∧
  (∃ w' : http.ResponseWriter,
     saml.DefaultAuthorizeFunc m2 [] callback_without_relay_state
       alice_attributes = Return w' ∧
     w' ≠ saml.forbidden [] ∧
     ∃ cookie redirectURI,
       w' = [http.SetCookieCall cookie; http.RedirectCall redirectURI 302] ∧
       http.MaxAge cookie = 3600).
Proof.
  assert (∀ mw,
            (∃ w' : http.ResponseWriter,
               saml.DefaultAuthorizeFunc mw [] callback_without_relay_state
                 alice_attributes = Return w' ∧ w' ≠ saml.forbidden []) →
            ∃ w' : http.ResponseWriter,
              saml.DefaultAuthorizeFunc mw [] callback_without_relay_state
                alice_attributes = Return w' ∧
              w' ≠ saml.forbidden [] ∧
              ∃ cookie redirectURI,
                w' = [http.SetCookieCall cookie;
                      http.RedirectCall redirectURI 302] ∧
                http.MaxAge cookie = 3600) as Huse.
  { intros mw (w' & Hres & Hnf).
    destruct (C7_session_lifetime_is_fixed_at_one_hour mw [] w'
                callback_without_relay_state alice_attributes Hres Hnf)
      as (tok & claims & uri & cookie & Hw & Hage & _).
    exists w'. refine (conj Hres (conj Hnf _)).
    exists cookie, uri. exact (conj Hw Hage). }
  split; apply Huse; eexists; (split; [run|vm_compute; discriminate]).
Defined.

(** With a service provider that cannot build the redirect request, the
    guard answers a request for the callback path that has no cookie with a
    500 and does not panic: the claim of C8 fails there. *)
Lemma C8_counterexample :
  saml.isAuthorized m acs_request = Return (false, acs_request) ∧
  url.Parse (saml.AcsURL (saml.ServiceProvider m)) =
    Ok {| url.Scheme := "https"; url.Host := "sp.example.com";
          url.Path := "/saml/acs"; url.RawQuery := "" |} ∧
  url.Path (http.URL acs_request) = "/saml/acs" ∧
  saml.RequireAccountMiddleware
    (package := Standin.collaborators_without_idp) m handler [] acs_request =
    Return [http.ErrorCall
              "no redirect binding in the identity provider metadata" 500].
Proof. split_and!; run. Qed.

Lemma C8_witness :
  saml.isAuthorized m acs_request = Return (false, acs_request) ∧
  url.Parse (saml.AcsURL (saml.ServiceProvider m)) =
    Ok {| url.Scheme := "https"; url.Host := "sp.example.com";
          url.Path := "/saml/acs"; url.RawQuery := "" |} ∧
  url.Path (http.URL acs_request) = "/saml/acs" ∧
  saml.RequireAccountMiddleware m handler [] acs_request =
    Panic (PanicString
      "don't wrap ServiceProviderMiddleware with RequireAccountMiddleware").
Proof.
  assert (saml.isAuthorized m acs_request = Return (false, acs_request))
    as Hauth by run.
  assert (url.Parse (saml.AcsURL (saml.ServiceProvider m)) =
            Ok {| url.Scheme := "https"; url.Host := "sp.example.com";
                  url.Path := "/saml/acs"; url.RawQuery := "" |}) as Hacs
    by run.
  destruct (C8_unauthorized_callback_request_is_never_redirected
              m handler [] acs_request acs_request _
              Hauth Hacs eq_refl) as (Hpanic & _ & _).
  refine (conj Hauth (conj Hacs (conj eq_refl _))).
  apply (Hpanic (signed "HS256" (saml.relay_state_claims acs_request) secret)
           {| url.Scheme := "https"; url.Host := "idp.example.com";
              url.Path := "/sso";
              url.RawQuery :=
                "SAMLRequest=req&RelayState=" +:+
                signed "HS256" (saml.relay_state_claims acs_request) secret |});
    [eexists; split; run|run].
Defined.

Lemma C9_witness :
  saml.DefaultIsAuthorized m protected_request =
    Return (false, protected_request) ∧
  protected_request = protected_request ∧
  http.Header protected_request = http.Header protected_request.
Proof.
  assert (saml.DefaultIsAuthorized m protected_request =
            Return (false, protected_request)) as Hres by run.
  exact (conj Hres
           (C9_refusal_leaves_headers_unchanged m protected_request
              protected_request Hres)).
Defined.

Lemma C10_witness :
  (∃ t,
     Values_Get (http.Form (callback relay_state_without_uri)) "RelayState"
       ≠ "" ∧
     saml.verifies m
       (Values_Get (http.Form (callback relay_state_without_uri))
          "RelayState") t ∧
     jwt.Claims t !! "uri" = None) ∧
  saml.DefaultAuthorizeFunc m [] (callback relay_state_without_uri)
    alice_attributes = Panic InterfaceConversion ∧
  (∃ t,
     Values_Get (http.Form (callback relay_state_numeric_uri)) "RelayState"
       ≠ "" ∧
     saml.verifies m
       (Values_Get (http.Form (callback relay_state_numeric_uri))
          "RelayState") t ∧
     jwt.Claims t !! "uri" = Some (VNumber 7)) ∧
  saml.DefaultAuthorizeFunc m [] (callback relay_state_numeric_uri)
    alice_attributes = Panic InterfaceConversion.
Proof.
  assert (∃ t,
     Values_Get (http.Form (callback relay_state_without_uri)) "RelayState"
       ≠ "" ∧
     saml.verifies m
       (Values_Get (http.Form (callback relay_state_without_uri))
          "RelayState") t ∧
     jwt.Claims t !! "uri" = None) as Hex.
  { eexists. split_and!; [vm_compute; discriminate|split; run|run]. }
  assert (∃ t,
     Values_Get (http.Form (callback relay_state_numeric_uri)) "RelayState"
       ≠ "" ∧
     saml.verifies m
       (Values_Get (http.Form (callback relay_state_numeric_uri))
          "RelayState") t ∧
     jwt.Claims t !! "uri" = Some (VNumber 7)) as Hex'.
  { eexists. split_and!; [vm_compute; discriminate|split; run|run]. }
  refine (conj Hex (conj _ (conj Hex' _))).
  - destruct Hex as (t & Hne & Hv & Huri).
    exact (C10_relay_state_without_string_uri_panics m []
             (callback relay_state_without_uri) alice_attributes t
             Hne Hv (or_introl Huri)).
  - destruct Hex' as (t & Hne & Hv & Huri).
    refine (C10_relay_state_without_string_uri_panics m []
              (callback relay_state_numeric_uri) alice_attributes t
              Hne Hv (or_intror (ex_intro _ (VNumber 7) (conj Huri _)))).
    intros s. discriminate.
Defined.

End Concrete.

(** * Further properties of the middleware *)

Section Further.
Context {go_map : MapRange} {url_lib : url.Primitives}
        {pem_lib : pem.Primitives} {http_lib : http.Primitives}
        {jwt_lib : jwt.Primitives} {package : saml.Collaborators}
        {form_parser : http.FormParser} {verifier : saml.Verifier}.

(** ** [RequireAttribute] *)

Lemma attribute_loop_elem_of (values : list string) (value : string)
    (handler : http.Handler) (w : http.ResponseWriter) (r : http.Request) :
  (value ∈ values →
   saml.attribute_loop values value handler w r = Some (handler w r)) ∧
  (value ∉ values → saml.attribute_loop values value handler w r = None).
Proof.
  induction values as [|v rest [IHin IHout]]; simpl.
  - split; [intros Hin; inversion Hin|done].
  - destruct (decide (v = value)) as [->|Hne].
    + split; [done|]. intros Hout. destruct Hout. apply list_elem_of_here.
    + split.
      * intros [Heq|Hin]%elem_of_cons; [congruence|by apply IHin].
      * intros Hout. apply IHout. intros Hin. apply Hout.
        by apply list_elem_of_further.
Qed.

Lemma RequireAttribute_cases
    (name value : string) (handler : http.Handler)
    (w : http.ResponseWriter) (r : http.Request) :
  ((∃ values,
      http.Header r !! http.CanonicalHeaderKey ("X-Saml-" +:+ name)
        = Some values ∧ value ∈ values) →
   saml.RequireAttribute name value handler w r = handler w r) ∧
  ((∀ values,
      http.Header r !! http.CanonicalHeaderKey ("X-Saml-" +:+ name)
        = Some values → value ∉ values) →
   saml.RequireAttribute name value handler w r =
     Return (w ++ [http.ErrorCall "Forbidden" 403])%list).
Proof.
  unfold saml.RequireAttribute. split.
  - intros (values & -> & Hin).
    by rewrite (proj1 (attribute_loop_elem_of values value handler w r) Hin).
  - intros Hout.
    destruct (http.Header r !! _) as [values|] eqn:Hv; [|done].
    by rewrite (proj2 (attribute_loop_elem_of values value handler w r)
                  (Hout values eq_refl)).
Qed.

(** X1: [RequireAttribute name value] runs the wrapped handler, on the
    response and request as they came, exactly when the header under the
    canonical form of [X-Saml-<name>] has [value] among its values (any of
    them, not only the first); when the header is missing or no value
    matches, the response is the 403 and the handler is not run. *)
Theorem X1_RequireAttribute_serves_exactly_when_value_present
    (name value : string) (handler : http.Handler)
    (w : http.ResponseWriter) (r : http.Request) :
  ((∃ values,
      http.Header r !! http.CanonicalHeaderKey ("X-Saml-" +:+ name)
        = Some values ∧ value ∈ values) →
   saml.RequireAttribute name value handler w r = handler w r) ∧
  ((∀ values,
      http.Header r !! http.CanonicalHeaderKey ("X-Saml-" +:+ name)
        = Some values → value ∉ values) →
   saml.RequireAttribute name value handler w r =
     Return (w ++ [http.ErrorCall "Forbidden" 403])%list).
Proof. apply RequireAttribute_cases. Qed.

(** ** [DefaultIsAuthorized] *)

Lemma DefaultIsAuthorized_verified (m : saml.ServiceProviderMiddleware)
    (r : http.Request) (cookie : http.Cookie) (token : jwt.Token) :
  http.Request_Cookie r saml.cookieName = Ok cookie →
  saml.verifies m (http.Value cookie) token →
  saml.no_trusted_header r →
  saml.DefaultIsAuthorized m r =
    Return (true,
            http.with_Header r
              (fold_left saml.set_trusted_header
                 (saml.string_claims (range (jwt.Claims token)))
                 (http.Header r))).
Proof.
  intros Hc [HP Hvalid] Hno. unfold saml.DefaultIsAuthorized.
  rewrite Hc, HP. exec_unfold. rewrite Hvalid. simpl.
  apply check_headers_no_trusted_header in Hno. rewrite Hno.
  by rewrite copy_claims_fold.
Qed.

Lemma string_claims_range (claims : gmap string any) (name c : string) :
  (name, c) ∈ saml.string_claims (range claims) ↔
  claims !! name = Some (VString c).
Proof. by rewrite elem_of_string_claims, elem_of_range. Qed.

(** After the copy of the claims, a header is as it came or is the header
    of a string-valued claim and holds its value. *)
Lemma copied_header_frame (claims : gmap string any)
    (header : gmap string (list string)) (key : string) :
  fold_left saml.set_trusted_header (saml.string_claims (range claims))
    header !! key = header !! key ∨
  ∃ name c,
    claims !! name = Some (VString c) ∧
    key = http.CanonicalHeaderKey ("X-Saml-" +:+ name) ∧
    fold_left saml.set_trusted_header (saml.string_claims (range claims))
      header !! key = Some [c].
Proof.
  destruct (fold_set_trusted_header_frame
              (saml.string_claims (range claims)) header key)
    as [Hsame|(name & c & Hin%string_claims_range & Hkey & Hl)];
    [by left|].
  right. by exists name, c.
Qed.

Lemma DefaultIsAuthorized_true_inv (m : saml.ServiceProviderMiddleware)
    (r r' : http.Request) :
  saml.DefaultIsAuthorized m r = Return (true, r') →
  ∃ cookie token,
    http.Request_Cookie r saml.cookieName = Ok cookie ∧
    saml.verifies m (http.Value cookie) token ∧
    saml.no_trusted_header r ∧
    r' = http.with_Header r
           (fold_left saml.set_trusted_header
              (saml.string_claims (range (jwt.Claims token)))
              (http.Header r)).
Proof.
  intros Hres.
  destruct (DefaultIsAuthorized_cases m r)
    as [Hf|[[p Hp]|(cookie & token & Hc & Hv & Hscan & Ht)]];
    rewrite Hres in *; simplify_eq.
  exists cookie, token. split_and!; try done.
  - by apply check_headers_no_trusted_header.
  - by rewrite copy_claims_fold.
Qed.

Lemma DefaultIsAuthorized_true_trusted_headers
    (m : saml.ServiceProviderMiddleware) (r r' : http.Request) :
  saml.DefaultIsAuthorized m r = Return (true, r') →
  ∃ cookie token,
    http.Request_Cookie r saml.cookieName = Ok cookie ∧
    saml.verifies m (http.Value cookie) token ∧
    saml.trusted_headers_from (jwt.Claims token) r' ∧
    http.URL r' = http.URL r ∧ http.Form r' = http.Form r.
Proof.
  intros (cookie & token & Hc & Hv & Hno & ->)%DefaultIsAuthorized_true_inv.
  exists cookie, token. split_and!; try done.
  intros key vals Hl Hp. simpl in Hl.
  destruct (copied_header_frame (jwt.Claims token) (http.Header r) key)
    as [Hsame|(name & c & Hin & Hkey & Hset)].
  - rewrite Hsame in Hl.
    assert (strings.HasPrefix key "X-Saml" = false) as Hfalse
      by (apply Hno; eauto).
    congruence.
  - rewrite Hset in Hl. simplify_eq. by exists name, c.
Qed.

(** X2: when [DefaultIsAuthorized] returns true, every header of the
    request it leaves whose name starts with [X-Saml] is the header of a
    string-valued claim of the verified token of the session cookie and
    holds exactly that claim's value; URL and form are untouched. *)
Theorem X2_DefaultIsAuthorized_trusted_headers_come_from_claims
    (m : saml.ServiceProviderMiddleware) (r r' : http.Request) :
  saml.DefaultIsAuthorized m r = Return (true, r') →
  ∃ cookie token,
    http.Request_Cookie r saml.cookieName = Ok cookie ∧
    saml.verifies m (http.Value cookie) token ∧
    saml.trusted_headers_from (jwt.Claims token) r' ∧
    http.URL r' = http.URL r ∧ http.Form r' = http.Form r.
Proof. apply DefaultIsAuthorized_true_trusted_headers. Qed.

(** X3: [DefaultIsAuthorized] returns true only for a cookie whose token
    verifies and is current: a numeric [exp] is not before the clock of
    the token library and a numeric [nbf] is not after it. *)
Theorem X3_DefaultIsAuthorized_accepts_only_current_tokens
    (m : saml.ServiceProviderMiddleware) (r r' : http.Request) :
  saml.DefaultIsAuthorized m r = Return (true, r') →
  ∃ cookie token,
    http.Request_Cookie r saml.cookieName = Ok cookie ∧
    saml.verifies m (http.Value cookie) token ∧
    (∀ exp, jwt.Claims token !! "exp" = Some (VNumber exp) →
            time.Unix jwt.TimeFunc ≤ exp) ∧
    (∀ nbf, jwt.Claims token !! "nbf" = Some (VNumber nbf) →
            nbf ≤ time.Unix jwt.TimeFunc).
Proof.
  intros (cookie & token & Hc & Hv & _ & _)%DefaultIsAuthorized_true_inv.
  exists cookie, token. split_and!; try done.
  - destruct Hv as [HP _].
    apply Parse_valid_inv in HP
      as (p0 & p1 & p2 & header & claims & alg & method & key & _ & _ & _ &
          _ & _ & _ & He & _ & _ & ->).
    simpl. intros exp Hexp. unfold jwt.expired in He. rewrite Hexp in He.
    apply bool_decide_eq_false in He. lia.
  - destruct Hv as [HP _].
    apply Parse_valid_inv in HP
      as (p0 & p1 & p2 & header & claims & alg & method & key & _ & _ & _ &
          _ & _ & _ & _ & Hn & _ & ->).
    simpl. intros nbf Hnbf. unfold jwt.not_valid_yet in Hn.
    rewrite Hnbf in Hn. apply bool_decide_eq_false in Hn. lia.
Qed.

(** A token string that declares no algorithm, or one that is not
    registered, fails verification, whatever the key. *)
Lemma undeclared_alg_fails_verification (m : saml.ServiceProviderMiddleware)
    (tokenString : string) :
  saml.declared_alg tokenString = None ∨
  (∃ alg, saml.declared_alg tokenString = Some alg ∧
          jwt.GetSigningMethod alg = None) →
  saml.fails_verification m tokenString.
Proof.
  unfold saml.declared_alg, saml.fails_verification, jwt.Parse.
  intros Halg. left.
  destruct (strings.Split tokenString ".") as [|p0 [|p1 [|p2 [|]]]];
    try by eexists _, _.
  destruct (jwt.DecodeJSONSegment p0) as [header|]; [|by eexists _, _].
  destruct (jwt.DecodeJSONSegment p1) as [claims|]; [|by eexists _, _].
  destruct (header !! "alg") as [[alg| |]|]; try by eexists _, _.
  destruct Halg as [Hnone|(alg' & Hsome & Hreg)]; [done|].
  simplify_eq. rewrite Hreg. by eexists _, _.
Qed.

(** X4: a token string that is not three segments with a decodable
    header naming an algorithm, or that names an algorithm that is not
    registered, is refused whatever the key: [DefaultIsAuthorized] returns
    false and leaves the request as it came, and [DefaultAuthorizeFunc]
    answers such a relay state with the 403. *)
Theorem X4_token_without_registered_alg_is_refused
    (m : saml.ServiceProviderMiddleware) (tokenString : string) :
  saml.declared_alg tokenString = None ∨
  (∃ alg, saml.declared_alg tokenString = Some alg ∧
          jwt.GetSigningMethod alg = None) →
  (∀ r cookie,
     http.Request_Cookie r saml.cookieName = Ok cookie →
     http.Value cookie = tokenString →
     saml.DefaultIsAuthorized m r = Return (false, r)) ∧
  (∀ w r assertionAttributes,
     Values_Get (http.Form r) "RelayState" = tokenString →
     tokenString ≠ "" →
     saml.DefaultAuthorizeFunc m w r assertionAttributes =
       Return (w ++ [http.ErrorCall "Forbidden" 403])%list).
Proof.
  intros Hf%(undeclared_alg_fails_verification m). split.
  - intros r cookie Hc <-. by eapply DefaultIsAuthorized_bad_cookie.
  - intros w r attrs <- Hne.
    by apply DefaultAuthorizeFunc_relay_state_rejected.
Qed.

(** ** [RequireAccountMiddleware] *)

(** X5: with the default check, [RequireAccountMiddleware] either runs
    the wrapped handler on a request whose [X-Saml] headers all come from
    the string-valued claims of the verified cookie token, or its outcome
    does not depend on the handler at all. *)
Theorem X5_guard_runs_handler_on_verified_headers_or_not_at_all
    (m : saml.ServiceProviderMiddleware) (handler : http.Handler)
    (w : http.ResponseWriter) (r : http.Request) :
  saml.IsAuthorizedFunc m = None →
  (∃ r' cookie token,
     http.Request_Cookie r saml.cookieName = Ok cookie ∧
     saml.verifies m (http.Value cookie) token ∧
     saml.trusted_headers_from (jwt.Claims token) r' ∧
     saml.RequireAccountMiddleware m handler w r = handler w r') ∨
  (∀ handler',
     saml.RequireAccountMiddleware m handler' w r =
     saml.RequireAccountMiddleware m handler w r).
Proof.
  intros Hdefault.
  destruct (saml.DefaultIsAuthorized m r) as [[[] r']|p] eqn:Hres.
  - left.
    destruct (DefaultIsAuthorized_true_trusted_headers m r r' Hres)
      as (cookie & token & Hc & Hv & Ht & _).
    exists r', cookie, token. split_and!; try done.
    unfold saml.RequireAccountMiddleware. rewrite Hdefault, Hres. done.
  - right. intros handler'. unfold saml.RequireAccountMiddleware.
    rewrite Hdefault, Hres. done.
  - right. intros handler'. unfold saml.RequireAccountMiddleware.
    rewrite Hdefault, Hres. done.
Qed.

(** X6: [RequireAttribute name value] behind the guard with the default
    check: for a request without [X-Saml] headers whose session cookie
    verifies and whose token has the string claim [name] equal to [value]
    (and no string claim with the same header name up to case and another
    value), the inner handler runs, on the request with the trusted
    headers set. *)
Theorem X6_guard_then_attribute_gate_serves_matching_claim
    (m : saml.ServiceProviderMiddleware) (name value : string)
    (handler : http.Handler) (w : http.ResponseWriter) (r : http.Request)
    (cookie : http.Cookie) (token : jwt.Token) :
  saml.IsAuthorizedFunc m = None →
  http.Request_Cookie r saml.cookieName = Ok cookie →
  saml.verifies m (http.Value cookie) token →
  saml.no_trusted_header r →
  jwt.Claims token !! name = Some (VString value) →
  (∀ name' c',
     jwt.Claims token !! name' = Some (VString c') →
     http.CanonicalHeaderKey ("X-Saml-" +:+ name') =
     http.CanonicalHeaderKey ("X-Saml-" +:+ name) → c' = value) →
  ∃ r',
    saml.DefaultIsAuthorized m r = Return (true, r') ∧
    saml.RequireAccountMiddleware m
      (saml.RequireAttribute name value handler) w r = handler w r'.
Proof.
  intros Hdefault Hc Hv Hno Hclaim Hagree.
  eexists. split; [by apply (DefaultIsAuthorized_verified m r cookie token)|].
  unfold saml.RequireAccountMiddleware.
  rewrite Hdefault, (DefaultIsAuthorized_verified m r cookie token) by done.
  exec_unfold. cbv beta iota.
  apply RequireAttribute_cases.
  exists [value]. split; [|apply list_elem_of_here]. simpl.
  apply fold_set_trusted_header_lookup; [by apply string_claims_range|].
  intros name' c' Hin%string_claims_range. by apply Hagree.
Qed.

(** X7: [RequireAttribute name value] behind the guard with the default
    check: for a request without [X-Saml] headers whose session cookie
    verifies, if no string claim of the token with the header name of
    [name] has the value [value], the response is the 403.  The canonical
    form of the header name must keep the prefix [X-Saml], as that of the
    library does. *)
Theorem X7_guard_then_attribute_gate_refuses_other_claims
    (m : saml.ServiceProviderMiddleware) (name value : string)
    (handler : http.Handler) (w : http.ResponseWriter) (r : http.Request)
    (cookie : http.Cookie) (token : jwt.Token) :
  saml.IsAuthorizedFunc m = None →
  http.Request_Cookie r saml.cookieName = Ok cookie →
  saml.verifies m (http.Value cookie) token →
  saml.no_trusted_header r →
  strings.HasPrefix (http.CanonicalHeaderKey ("X-Saml-" +:+ name)) "X-Saml"
    = true →
  (∀ name' c',
     jwt.Claims token !! name' = Some (VString c') →
     http.CanonicalHeaderKey ("X-Saml-" +:+ name') =
     http.CanonicalHeaderKey ("X-Saml-" +:+ name) → c' ≠ value) →
  saml.RequireAccountMiddleware m
    (saml.RequireAttribute name value handler) w r =
    Return (w ++ [http.ErrorCall "Forbidden" 403])%list.
Proof.
  intros Hdefault Hc Hv Hno Hprefix Hother.
  unfold saml.RequireAccountMiddleware.
  rewrite Hdefault, (DefaultIsAuthorized_verified m r cookie token) by done.
  exec_unfold. cbv beta iota.
  apply RequireAttribute_cases.
  intros values Hl. simpl in Hl.
  destruct (copied_header_frame (jwt.Claims token) (http.Header r)
              (http.CanonicalHeaderKey ("X-Saml-" +:+ name)))
    as [Hsame|(name' & c' & Hin & Hkey & Hset)].
  - rewrite Hsame in Hl.
    assert (strings.HasPrefix
              (http.CanonicalHeaderKey ("X-Saml-" +:+ name)) "X-Saml"
            = false) as Hfalse by (apply Hno; eauto).
    congruence.
  - rewrite Hset in Hl. simplify_eq.
    intros Hin'%list_elem_of_singleton. subst.
    by eapply Hother.
Qed.

(** X8: when the key of the service provider is not a PEM block,
    [RequireAccountMiddleware] panics with a nil dereference on every
    request that is not authorized; it neither redirects nor answers
    500. *)
Theorem X8_guard_with_key_that_is_no_PEM_block_panics
    (m : saml.ServiceProviderMiddleware) (handler : http.Handler)
    (w : http.ResponseWriter) (r r' : http.Request) :
  pem.Decode (list_byte_of_string (saml.Key (saml.ServiceProvider m)))
    = None →
  saml.isAuthorized m r = Return (false, r') →
  saml.RequireAccountMiddleware m handler w r = Panic NilDereference.
Proof.
  intros Hb Hauth.
  rewrite (RequireAccountMiddleware_unauthorized_eq _ _ _ _ r') by done.
  by rewrite Hb.
Qed.

(** ** [DefaultAuthorizeFunc] *)

(** X9: when the key of the service provider is not a PEM block,
    [DefaultAuthorizeFunc] never sets a cookie: without relay state it
    panics with a nil dereference, and whenever it returns the response is
    the 403. *)
Theorem X9_authorize_with_key_that_is_no_PEM_block_sets_no_cookie
    (m : saml.ServiceProviderMiddleware) (w : http.ResponseWriter)
    (r : http.Request) (assertionAttributes : saml.AssertionAttributes) :
  pem.Decode (list_byte_of_string (saml.Key (saml.ServiceProvider m)))
    = None →
  (Values_Get (http.Form r) "RelayState" = "" →
   saml.DefaultAuthorizeFunc m w r assertionAttributes
     = Panic NilDereference) ∧
  (∀ w', saml.DefaultAuthorizeFunc m w r assertionAttributes = Return w' →
         w' = (w ++ [http.ErrorCall "Forbidden" 403])%list).
Proof.
  intros Hb.
  assert (∀ uri w', saml.session_response m w assertionAttributes uri
                    ≠ Return w') as Hnever.
  { intros uri w'. unfold saml.session_response. by rewrite Hb. }
  split.
  - intros Hrs. rewrite DefaultAuthorizeFunc_without_relay_state by done.
    unfold saml.session_response. by rewrite Hb.
  - intros w' [->|(uri & Hs & _)]%DefaultAuthorizeFunc_Return; [done|].
    by destruct (Hnever uri w').
Qed.

Lemma DefaultAuthorizeFunc_relay_state_session
    (m : saml.ServiceProviderMiddleware) (w : http.ResponseWriter)
    (r : http.Request) (assertionAttributes : saml.AssertionAttributes)
    (t : jwt.Token) (redirectURI signedToken : string) :
  Values_Get (http.Form r) "RelayState" ≠ "" →
  saml.verifies m (Values_Get (http.Form r) "RelayState") t →
  jwt.Claims t !! "uri" = Some (VString redirectURI) →
  saml.signs m (saml.session_claims assertionAttributes) signedToken →
  saml.DefaultAuthorizeFunc m w r assertionAttributes =
    Return (w ++ [http.SetCookieCall (saml.session_cookie signedToken);
                  http.RedirectCall redirectURI 302])%list.
Proof.
  intros Hrs Hv Huri Hs.
  rewrite (DefaultAuthorizeFunc_relay_state_verified _ _ _ _ t) by done.
  rewrite Huri. apply session_response_Return. eauto.
Qed.

(** X10: with a relay state that verifies and has a string [uri] claim,
    [DefaultAuthorizeFunc] sets the session cookie (name [token], path [/],
    Max-Age 3600, not HTTP-only) with the signed session token and then
    redirects with 302 to that [uri]. *)
Theorem X10_authorize_with_verified_relay_state_redirects_to_its_uri
    (m : saml.ServiceProviderMiddleware) (w : http.ResponseWriter)
    (r : http.Request) (assertionAttributes : saml.AssertionAttributes)
    (t : jwt.Token) (redirectURI signedToken : string) :
  Values_Get (http.Form r) "RelayState" ≠ "" →
  saml.verifies m (Values_Get (http.Form r) "RelayState") t →
  jwt.Claims t !! "uri" = Some (VString redirectURI) →
  saml.signs m (saml.session_claims assertionAttributes) signedToken →
  saml.DefaultAuthorizeFunc m w r assertionAttributes =
    Return (w ++ [http.SetCookieCall (saml.session_cookie signedToken);
                  http.RedirectCall redirectURI 302])%list.
Proof. apply DefaultAuthorizeFunc_relay_state_session. Qed.

Lemma append_separator_nonempty (a b : string) (c : ascii) :
  a +:+ String c b ≠ "".
Proof. destruct a; [rewrite append_nil|rewrite append_cons]; discriminate. Qed.

Lemma encode_nonempty (claims : gmap string any) (secret : bytes)
    (tokenString : string) :
  saml.encode claims secret = Return (Ok tokenString) → tokenString ≠ "".
Proof.
  unfold saml.encode, jwt.New, jwt.SignedString, jwt.SigningString.
  destruct (jwt.GetSigningMethod "HS256") as [method|]; [|done].
  exec_unfold. cbv beta iota. cbn [jwt.Method jwt.with_Claims].
  destruct (jwt.Sign method _ secret) as [sig|]; [|done].
  intros [= <-].
  change (strings.Join [strings.Join [?a; ?b] "."; sig] ".")
    with ((a +:+ String "." b) +:+ String "." sig).
  rewrite append_assoc, append_cons. apply append_separator_nonempty.
Qed.

(** X11: the relay state the guard signs for a request, when it comes
    back in the callback, makes [DefaultAuthorizeFunc] set the session
    cookie and redirect to the URI of that request. *)
Theorem X11_relay_state_of_guard_brings_callback_back_to_request
    (m : saml.ServiceProviderMiddleware) (w : http.ResponseWriter)
    (original callback : http.Request)
    (assertionAttributes : saml.AssertionAttributes) (block : pem.Block)
    (signedRelayState signedToken : string) :
  pem.Decode (list_byte_of_string (saml.Key (saml.ServiceProvider m)))
    = Some block →
  saml.encode (saml.relay_state_claims original) (pem.Bytes block)
    = Return (Ok signedRelayState) →
  saml.well_coded (saml.relay_state_claims original) (pem.Bytes block) →
  Values_Get (http.Form callback) "RelayState" = signedRelayState →
  saml.signs m (saml.session_claims assertionAttributes) signedToken →
  saml.DefaultAuthorizeFunc m w callback assertionAttributes =
    Return (w ++ [http.SetCookieCall (saml.session_cookie signedToken);
                  http.RedirectCall (url.String (http.URL original)) 302])%list.
Proof.
  intros Hb Henc Hw Hform Hs.
  destruct (relay_state_claims_timeless original) as [He Hn].
  destruct (signs_verifies m (saml.relay_state_claims original)
              signedRelayState block) as (t & Hv & Hc); try done.
  apply (DefaultAuthorizeFunc_relay_state_session
           m w callback assertionAttributes t); try done.
  - rewrite Hform. by eapply encode_nonempty.
  - by rewrite Hform.
  - rewrite Hc. apply lookup_singleton_eq.
Qed.

(** ** The life of a session *)

Lemma attribute_claims_strings
    (assertionAttributes : saml.AssertionAttributes) (name : string)
    (v : any) :
  saml.attribute_claims assertionAttributes !! name = Some v →
  ∃ c, v = VString c.
Proof.
  unfold saml.attribute_claims.
  assert (∀ acc : gmap string any,
            (∀ k x, acc !! k = Some x → ∃ c, x = VString c) →
            ∀ k x,
              fold_left
                (fun c attr =>
                   <[saml.FriendlyName attr := VString (saml.Value attr)]> c)
                assertionAttributes acc !! k = Some x →
              ∃ c, x = VString c) as Hgen.
  { induction assertionAttributes as [|attr rest IH]; intros acc Hacc;
      [done|].
    simpl. apply IH. intros k x.
    destruct (decide (saml.FriendlyName attr = k)) as [->|Hne].
    - rewrite lookup_insert_eq. intros [= <-]. eauto.
    - rewrite lookup_insert_ne by done. apply Hacc. }
  apply Hgen. intros k x Hl. by rewrite lookup_empty in Hl.
Qed.

Lemma session_claims_not_valid_yet
    (assertionAttributes : saml.AssertionAttributes) :
  jwt.not_valid_yet (saml.session_claims assertionAttributes) = false.
Proof.
  unfold jwt.not_valid_yet, saml.session_claims.
  rewrite lookup_insert_ne by done.
  destruct (saml.attribute_claims assertionAttributes !! "nbf")
    as [v|] eqn:Hv; [|done].
  by destruct (attribute_claims_strings _ _ _ Hv) as [c ->].
Qed.

Lemma session_claims_expired
    (assertionAttributes : saml.AssertionAttributes) :
  jwt.expired (saml.session_claims assertionAttributes) =
  bool_decide (time.Unix jwt.TimeFunc > time.Unix saml.timeNow + 3600).
Proof.
  unfold jwt.expired, saml.session_claims. by rewrite lookup_insert_eq.
Qed.

(** What a well-coded claim set is signed into. *)
Lemma encode_well_coded (claims : gmap string any) (secret : bytes) :
  saml.well_coded claims secret →
  ∃ method p0 p1 sig,
    jwt.GetSigningMethod "HS256" = Some method ∧
    saml.encode claims secret =
      Return (Ok (strings.Join [strings.Join [p0; p1] "."; sig] ".")) ∧
    strings.Split (strings.Join [strings.Join [p0; p1] "."; sig] ".") "."
      = [p0; p1; sig] ∧
    jwt.DecodeJSONSegment p0 = Ok (jwt.new_Header method) ∧
    jwt.DecodeJSONSegment p1 = Ok claims ∧
    jwt.new_Header method !! "alg" = Some (VString "HS256") ∧
    jwt.Verify method (strings.Join [p0; p1] ".") sig secret = None.
Proof.
  intros (method & sig & Hm & Halg & [Hh Hhd] & [Hc Hcd] & Hsign & Hver & Hsd).
  exists method, (jwt.EncodeJSONSegment (jwt.new_Header method)),
    (jwt.EncodeJSONSegment claims), sig.
  split_and!; try done.
  - unfold saml.encode, jwt.New, jwt.SignedString, jwt.SigningString,
      jwt.with_Claims.
    rewrite Hm. exec_unfold. cbv beta iota.
    cbn [jwt.Method jwt.Header jwt.Claims]. by rewrite Hsign.
  - by apply Split_three_segments.
  - unfold jwt.new_Header. rewrite lookup_insert_ne by done.
    by rewrite lookup_insert_eq, Halg.
Qed.

(** A well-coded claim set that is expired is signed into a token that
    [jwt.Parse] rejects. *)
Lemma encode_Parse_expired (claims : gmap string any) (secret : bytes)
    (keyFunc : jwt.Keyfunc) (tokenString : string) :
  saml.well_coded claims secret →
  (∀ t, keyFunc t = Return (Ok secret)) →
  saml.encode claims secret = Return (Ok tokenString) →
  jwt.expired claims = true →
  ∃ t e, jwt.Parse tokenString keyFunc = Return (t, Some e).
Proof.
  intros (method & p0 & p1 & sig & Hm & Henc & Hs & Hh & Hc & Halg & Hv)
    %encode_well_coded Hk Henc' He.
  assert (tokenString =
            strings.Join [strings.Join [p0; p1] "."; sig] ".") as ->
    by congruence.
  unfold jwt.Parse. rewrite Hs, Hh, Hc, Halg, Hm, Hk. exec_unfold.
  rewrite He, Hv. destruct (jwt.not_valid_yet claims); by eexists _, _.
Qed.




(** ** [ServeHTTP] *)

(** X15: [ServeHTTP] answers a request for the metadata path with the
    metadata document and nothing else, before it looks at the callback
    URL or the assertion, and a request for a path that is neither the
    metadata nor the callback path with the library's 404. *)
Theorem X15_ServeHTTP_serves_metadata_first_and_404_elsewhere
    (m : saml.ServiceProviderMiddleware) (w : http.ResponseWriter)
    (r : http.Request) (metadataURL : url.URL) :
  url.Parse (saml.MetadataURL (saml.ServiceProvider m)) = Ok metadataURL →
  (url.Path (http.URL r) = url.Path metadataURL →
   saml.ServeHTTP m w r =
     Return (w ++ [http.WriteCall
                     (saml.MetadataXML (saml.ServiceProvider m))], [])%list) ∧
  (∀ acsURL,
     url.Parse (saml.AcsURL (saml.ServiceProvider m)) = Ok acsURL →
     url.Path (http.URL r) ≠ url.Path metadataURL →
     url.Path (http.URL r) ≠ url.Path acsURL →
     saml.ServeHTTP m w r =
       Return (w ++ [http.ErrorCall "404 page not found" 404], [])%list).
Proof.
  intros Hmeta. unfold saml.ServeHTTP. rewrite Hmeta. split.
  - intros Hpath. by rewrite decide_True.
  - intros acsURL Hacs Hnm Hna.
    rewrite decide_False, Hacs, decide_False by done. done.
Qed.

(** X16: on the callback path, whatever error the assertion verifier
    returns, and whatever [AuthorizeFunc] is installed, [ServeHTTP] answers
    with the same 403 and standard text; the response, the clock reading
    and the cause of an invalid response go to the log only, and other
    errors are not logged. *)
Theorem X16_ServeHTTP_answers_every_verifier_error_with_the_same_403
    (m : saml.ServiceProviderMiddleware) (w : http.ResponseWriter)
    (r : http.Request) (metadataURL acsURL : url.URL)
    (err : saml.ResponseError) :
  url.Parse (saml.MetadataURL (saml.ServiceProvider m)) = Ok metadataURL →
  url.Parse (saml.AcsURL (saml.ServiceProvider m)) = Ok acsURL →
  url.Path (http.URL r) ≠ url.Path metadataURL →
  url.Path (http.URL r) = url.Path acsURL →
  saml.ParseResponse (saml.ServiceProvider m) (http.ParseForm r) ""
    = inr err →
  ∃ logged,
    saml.ServeHTTP m w r =
      Return (w ++ [http.ErrorCall "Forbidden" 403], logged)%list ∧
    match err with
    | saml.InvalidResponseError response now privateErr =>
        ∃ format, logged = [saml.Printf format response now privateErr]
    | saml.OtherError _ => logged = []
    end.
Proof.
  intros Hmeta Hacs Hnm Ha Herr. unfold saml.ServeHTTP.
  rewrite Hmeta, decide_False, Hacs, decide_True, Herr by done.
  eexists. split; [done|]. destruct err; eauto.
Qed.

(** The calls a run of [ServeHTTP] with the default callback adds. *)
Lemma ServeHTTP_default_Return (m : saml.ServiceProviderMiddleware)
    (w w' : http.ResponseWriter) (r : http.Request)
    (logged : list saml.LogCall) :
  saml.AuthorizeFunc m = None →
  saml.ServeHTTP m w r = Return (w', logged) →
  (∃ buf, w' = (w ++ [http.WriteCall buf])%list) ∨
  (∃ msg code, w' = (w ++ [http.ErrorCall msg code])%list) ∨
  (∃ attrs signedToken redirectURI,
     saml.ParseResponse (saml.ServiceProvider m) (http.ParseForm r) ""
       = inl attrs ∧
     saml.signs m (saml.session_claims attrs) signedToken ∧
     w' = (w ++ [http.SetCookieCall (saml.session_cookie signedToken);
                 http.RedirectCall redirectURI 302])%list).
Proof.
  intros Hdefault. unfold saml.ServeHTTP. rewrite Hdefault.
  destruct (url.Parse (saml.MetadataURL _)) as [metadataURL|]; [|done].
  case_decide; [intros [= <- _]; left; by eexists|].
  destruct (url.Parse (saml.AcsURL _)) as [acsURL|]; [|done].
  case_decide; [|intros [= <- _]; right; left; by eexists _, _].
  destruct (saml.ParseResponse _ _ _) as [attrs|err] eqn:Hparse;
    [|intros [= <- _]; right; left; by eexists _, _].
  destruct (saml.DefaultAuthorizeFunc m w (http.ParseForm r) attrs)
    as [w''|p] eqn:Hrun; exec_unfold; [|done].
  intros [= <- _].
  apply DefaultAuthorizeFunc_Return in Hrun as [->|(uri & Hs & _)].
  - right; left. by eexists _, _.
  - apply session_response_Return in Hs as (signedToken & Hs & ->).
    right; right. by exists attrs, signedToken, uri.
Qed.

(** X17: with the default callback, a cookie among the calls [ServeHTTP]
    adds to the response means that the assertion verifier returned an
    attribute set, and the cookie is the session cookie of a token signed
    over the session claims of exactly that attribute set. *)
Theorem X17_ServeHTTP_sets_cookie_only_for_verified_assertion
    (m : saml.ServiceProviderMiddleware) (w w' : http.ResponseWriter)
    (r : http.Request) (logged : list saml.LogCall)
    (calls : list http.Call) (cookie : http.Cookie) :
  saml.AuthorizeFunc m = None →
  saml.ServeHTTP m w r = Return (w', logged) →
  saml.gained w w' calls →
  http.SetCookieCall cookie ∈ calls →
  ∃ attrs signedToken,
    saml.ParseResponse (saml.ServiceProvider m) (http.ParseForm r) ""
      = inl attrs ∧
    saml.signs m (saml.session_claims attrs) signedToken ∧
    cookie = saml.session_cookie signedToken.
Proof.
  intros Hdefault Hres Hgain Hin. unfold saml.gained in Hgain.
  destruct (ServeHTTP_default_Return m w w' r logged Hdefault Hres)
    as [[buf Hw]|[(msg & code & Hw)|(attrs & tok & uri & Hp & Hs & Hw)]];
    rewrite Hw in Hgain; apply app_inv_head in Hgain; subst calls.
  - apply list_elem_of_singleton in Hin. discriminate.
  - apply list_elem_of_singleton in Hin. discriminate.
  - exists attrs, tok. split_and!; [done..|].
    apply elem_of_cons in Hin as [Heq|Hin]; [by simplify_eq|].
    apply list_elem_of_singleton in Hin. discriminate.
Qed.



End Further.

(** * The further properties at concrete requests *)

Section FurtherConcrete.
Import Scenario.
#[local] Existing Instances Standin.jwt_primitives Standin.map_range
  Standin.pem_primitives Standin.url_primitives Standin.http_primitives
  Standin.collaborators Standin.form_parser Standin.verifier.

Ltac run := vm_compute; reflexivity.
Ltac run_well_coded :=
  exists (Standin.SigningMethodHMAC "HS256" "SHA256"); eexists;
  unfold saml.segment_roundtrips; split_and!; run.

Lemma session_cookie_no_trusted_header (tokenString path query : string)
    (form : gmap string (list string)) :
  saml.no_trusted_header
    (request path query (session_cookie tokenString) form).
Proof.
  intros name [vals Hl]. unfold request, session_cookie in Hl.
  cbn [http.Header] in Hl.
  apply lookup_singleton_Some in Hl as [<- _]. run.
Qed.

Lemma alice_session :
  ∃ token,
    http.Request_Cookie alice_request saml.cookieName
      = Ok (sent_cookie alice_token) ∧
    saml.verifies m alice_token token ∧
    jwt.Claims token = alice_claims.
Proof. eexists. split_and!; [run|split; run|run]. Qed.

Lemma alice_claims_strings (name c : string) :
  alice_claims !! name = Some (VString c) →
  name = "uid" ∧ c = "alice@example.com".
Proof.
  intros Hin. apply string_claims_range in Hin. vm_compute in Hin.
  apply list_elem_of_singleton in Hin. injection Hin as -> ->.
  split; reflexivity.
Qed.

Lemma X1_witness :
  (∃ values,
     http.Header group_request !! http.CanonicalHeaderKey ("X-Saml-" +:+ "group")
       = Some values ∧ "Staff" ∈ values) ∧
  saml.RequireAttribute "group" "Staff" handler [] group_request
    = handler [] group_request ∧
  (∀ values,
     http.Header group_request !! http.CanonicalHeaderKey ("X-Saml-" +:+ "group")
       = Some values → "Faculty" ∉ values) ∧
  saml.RequireAttribute "group" "Faculty" handler [] group_request
    = Return ([] ++ [http.ErrorCall "Forbidden" 403])%list.
Proof.
  assert (http.Header group_request
            !! http.CanonicalHeaderKey ("X-Saml-" +:+ "group")
          = Some ["Students"; "Staff"]) as Hl by run.
  assert (∃ values,
            http.Header group_request
              !! http.CanonicalHeaderKey ("X-Saml-" +:+ "group")
            = Some values ∧ "Staff" ∈ values) as Hin.
  { exists ["Students"; "Staff"]. split; [exact Hl|].
    apply list_elem_of_further, list_elem_of_here. }
  assert (∀ values,
            http.Header group_request
              !! http.CanonicalHeaderKey ("X-Saml-" +:+ "group")
            = Some values → "Faculty" ∉ values) as Hout.
  { intros values Hv. rewrite Hl in Hv. injection Hv as <-.
    intros Hin'. apply elem_of_cons in Hin' as [Heq|Hin']; [discriminate|].
    apply list_elem_of_singleton in Hin'. discriminate. }
  refine (conj Hin (conj _ (conj Hout _))).
  - exact (proj1 (X1_RequireAttribute_serves_exactly_when_value_present
                    "group" "Staff" handler [] group_request) Hin).
  - exact (proj2 (X1_RequireAttribute_serves_exactly_when_value_present
                    "group" "Faculty" handler [] group_request) Hout).
Defined.

Lemma X2_witness :
  ∃ r',
    saml.DefaultIsAuthorized m alice_request = Return (true, r') ∧
    ∃ cookie token,
      http.Request_Cookie alice_request saml.cookieName = Ok cookie ∧
      saml.verifies m (http.Value cookie) token ∧
      saml.trusted_headers_from (jwt.Claims token) r' ∧
      http.URL r' = http.URL alice_request ∧
      http.Form r' = http.Form alice_request.
Proof.
  assert (∃ r', saml.DefaultIsAuthorized m alice_request = Return (true, r'))
    as [r' Hres] by (eexists; run).
  exists r'.
  exact (conj Hres
           (X2_DefaultIsAuthorized_trusted_headers_come_from_claims
              m alice_request r' Hres)).
Defined.

Lemma X3_witness :
  ∃ r',
    saml.DefaultIsAuthorized m alice_request = Return (true, r') ∧
    ∃ cookie token,
      http.Request_Cookie alice_request saml.cookieName = Ok cookie ∧
      saml.verifies m (http.Value cookie) token ∧
      (∀ exp, jwt.Claims token !! "exp" = Some (VNumber exp) →
              time.Unix jwt.TimeFunc ≤ exp) ∧
      (∀ nbf, jwt.Claims token !! "nbf" = Some (VNumber nbf) →
              nbf ≤ time.Unix jwt.TimeFunc).
Proof.
  assert (∃ r', saml.DefaultIsAuthorized m alice_request = Return (true, r'))
    as [r' Hres] by (eexists; run).
  exists r'.
  exact (conj Hres
           (X3_DefaultIsAuthorized_accepts_only_current_tokens
              m alice_request r' Hres)).
Defined.

Lemma X4_witness :
  (saml.declared_alg "abc.def" = None ∧
   http.Request_Cookie two_segment_request saml.cookieName
     = Ok (sent_cookie "abc.def") ∧
   saml.DefaultIsAuthorized m_bad_key two_segment_request
     = Return (false, two_segment_request)) ∧
  (saml.declared_alg none_token = Some "none" ∧
   jwt.GetSigningMethod "none" = None ∧
   http.Request_Cookie none_request saml.cookieName
     = Ok (sent_cookie none_token) ∧
   saml.DefaultIsAuthorized m none_request = Return (false, none_request) ∧
   saml.DefaultAuthorizeFunc m [] (callback none_token) alice_attributes
     = Return ([] ++ [http.ErrorCall "Forbidden" 403])%list).
Proof.
  assert (saml.declared_alg "abc.def" = None) as H1 by run.
  assert (http.Request_Cookie two_segment_request saml.cookieName
            = Ok (sent_cookie "abc.def")) as H2 by run.
  assert (saml.declared_alg none_token = Some "none") as H3 by run.
  assert (jwt.GetSigningMethod "none" = None) as H4 by run.
  assert (http.Request_Cookie none_request saml.cookieName
            = Ok (sent_cookie none_token)) as H5 by run.
  assert (Values_Get (http.Form (callback none_token)) "RelayState"
            = none_token) as H6 by run.
  assert (none_token ≠ "") as H7 by (vm_compute; discriminate).
  refine (conj (conj H1 (conj H2 _)) (conj H3 (conj H4 (conj H5 (conj _ _))))).
  - exact (proj1 (X4_token_without_registered_alg_is_refused m_bad_key "abc.def"
                    (or_introl H1))
             two_segment_request (sent_cookie "abc.def") H2 eq_refl).
  - exact (proj1 (X4_token_without_registered_alg_is_refused m none_token
                    (or_intror (ex_intro _ "none" (conj H3 H4))))
             none_request (sent_cookie none_token) H5 eq_refl).
  - exact (proj2 (X4_token_without_registered_alg_is_refused m none_token
                    (or_intror (ex_intro _ "none" (conj H3 H4))))
             [] (callback none_token) alice_attributes H6 H7).
Defined.

Lemma X5_witness :
  saml.IsAuthorizedFunc m = None ∧
  ((∃ r' cookie token,
      http.Request_Cookie alice_request saml.cookieName = Ok cookie ∧
      saml.verifies m (http.Value cookie) token ∧
      saml.trusted_headers_from (jwt.Claims token) r' ∧
      saml.RequireAccountMiddleware m handler [] alice_request
        = handler [] r') ∨
   (∀ handler',
      saml.RequireAccountMiddleware m handler' [] alice_request =
      saml.RequireAccountMiddleware m handler [] alice_request)).
Proof.
  exact (conj eq_refl
           (X5_guard_runs_handler_on_verified_headers_or_not_at_all
              m handler [] alice_request eq_refl)).
Defined.

Lemma X6_witness :
  ∃ token,
    saml.IsAuthorizedFunc m = None ∧
    http.Request_Cookie alice_request saml.cookieName
      = Ok (sent_cookie alice_token) ∧
    saml.verifies m (http.Value (sent_cookie alice_token)) token ∧
    saml.no_trusted_header alice_request ∧
    jwt.Claims token !! "uid" = Some (VString "alice@example.com") ∧
    ∃ r',
      saml.DefaultIsAuthorized m alice_request = Return (true, r') ∧
      saml.RequireAccountMiddleware m
        (saml.RequireAttribute "uid" "alice@example.com" handler) []
        alice_request = handler [] r'.
Proof.
  destruct alice_session as (token & Hc & Hv & Hclaims).
  assert (jwt.Claims token !! "uid" = Some (VString "alice@example.com"))
    as Huid by (rewrite Hclaims; run).
  exists token.
  refine (conj eq_refl (conj Hc (conj Hv
            (conj (session_cookie_no_trusted_header _ _ _ _)
               (conj Huid _))))).
  refine (X6_guard_then_attribute_gate_serves_matching_claim m "uid"
            "alice@example.com" handler [] alice_request
            (sent_cookie alice_token) token eq_refl Hc Hv
            (session_cookie_no_trusted_header _ _ _ _) Huid _).
  intros name' c' Hin _. rewrite Hclaims in Hin.
  exact (proj2 (alice_claims_strings name' c' Hin)).
Defined.

Lemma X7_witness :
  ∃ token,
    saml.IsAuthorizedFunc m = None ∧
    http.Request_Cookie alice_request saml.cookieName
      = Ok (sent_cookie alice_token) ∧
    saml.verifies m (http.Value (sent_cookie alice_token)) token ∧
    saml.no_trusted_header alice_request ∧
    strings.HasPrefix
      (http.CanonicalHeaderKey ("X-Saml-" +:+ "eduPersonAffiliation"))
      "X-Saml" = true ∧
    jwt.Claims token = alice_claims ∧
    saml.RequireAccountMiddleware m
      (saml.RequireAttribute "eduPersonAffiliation" "Staff" handler) []
      alice_request = Return ([] ++ [http.ErrorCall "Forbidden" 403])%list.
Proof.
  destruct alice_session as (token & Hc & Hv & Hclaims).
  assert (strings.HasPrefix
            (http.CanonicalHeaderKey ("X-Saml-" +:+ "eduPersonAffiliation"))
            "X-Saml" = true) as Hp by run.
  exists token.
  refine (conj eq_refl (conj Hc (conj Hv
            (conj (session_cookie_no_trusted_header _ _ _ _)
               (conj Hp (conj Hclaims _)))))).
  refine (X7_guard_then_attribute_gate_refuses_other_claims m
            "eduPersonAffiliation" "Staff" handler [] alice_request
            (sent_cookie alice_token) token eq_refl Hc Hv
            (session_cookie_no_trusted_header _ _ _ _) Hp _).
  intros name' c' Hin _. rewrite Hclaims in Hin.
  destruct (alice_claims_strings name' c' Hin) as [_ ->]. discriminate.
Defined.

Lemma X8_witness :
  pem.Decode
    (list_byte_of_string (saml.Key (saml.ServiceProvider m_bad_key)))
    = None ∧
  saml.isAuthorized m_bad_key protected_request
    = Return (false, protected_request) ∧
  saml.RequireAccountMiddleware m_bad_key handler [] protected_request
    = Panic NilDereference.
Proof.
  assert (pem.Decode
            (list_byte_of_string (saml.Key (saml.ServiceProvider m_bad_key)))
          = None) as Hb by run.
  assert (saml.isAuthorized m_bad_key protected_request
          = Return (false, protected_request)) as Hauth by run.
  exact (conj Hb (conj Hauth
           (X8_guard_with_key_that_is_no_PEM_block_panics m_bad_key handler []
              protected_request protected_request Hb Hauth))).
Defined.

Lemma X9_witness :
  pem.Decode
    (list_byte_of_string (saml.Key (saml.ServiceProvider m_bad_key)))
    = None ∧
  Values_Get (http.Form callback_without_relay_state) "RelayState" = "" ∧
  saml.DefaultAuthorizeFunc m_bad_key [] callback_without_relay_state
    alice_attributes = Panic NilDereference.
Proof.
  assert (pem.Decode
            (list_byte_of_string (saml.Key (saml.ServiceProvider m_bad_key)))
          = None) as Hb by run.
  assert (Values_Get (http.Form callback_without_relay_state) "RelayState"
          = "") as Hrs by run.
  exact (conj Hb (conj Hrs
           (proj1 (X9_authorize_with_key_that_is_no_PEM_block_sets_no_cookie
                     m_bad_key [] callback_without_relay_state
                     alice_attributes Hb) Hrs))).
Defined.

Lemma relay_state_session : ∃ t,
  saml.verifies m (Values_Get (http.Form (callback relay_state)) "RelayState")
    t ∧
  jwt.Claims t !! "uri" = Some (VString "/protected?x=1").
Proof. eexists. split; [split; run|run]. Qed.

Lemma issued_token_signs :
  saml.signs m (saml.session_claims alice_attributes) issued_token.
Proof. eexists. split; run. Qed.

Lemma X10_witness :
  ∃ t,
    Values_Get (http.Form (callback relay_state)) "RelayState" ≠ "" ∧
    saml.verifies m
      (Values_Get (http.Form (callback relay_state)) "RelayState") t ∧
    jwt.Claims t !! "uri" = Some (VString "/protected?x=1") ∧
    saml.signs m (saml.session_claims alice_attributes) issued_token ∧
    saml.DefaultAuthorizeFunc m [] (callback relay_state) alice_attributes =
      Return ([] ++ [http.SetCookieCall (saml.session_cookie issued_token);
                     http.RedirectCall "/protected?x=1" 302])%list.
Proof.
  destruct relay_state_session as (t & Hv & Huri).
  assert (Values_Get (http.Form (callback relay_state)) "RelayState" ≠ "")
    as Hne by (vm_compute; discriminate).
  exists t.
  exact (conj Hne (conj Hv (conj Huri (conj issued_token_signs
           (X10_authorize_with_verified_relay_state_redirects_to_its_uri m []
              (callback relay_state) alice_attributes t "/protected?x=1"
              issued_token Hne Hv Huri issued_token_signs))))).
Defined.

Lemma X11_witness :
  pem.Decode (list_byte_of_string (saml.Key (saml.ServiceProvider m)))
    = Some {| pem.Bytes := secret |} ∧
  saml.encode (saml.relay_state_claims protected_request) secret
    = Return (Ok relay_state) ∧
  saml.well_coded (saml.relay_state_claims protected_request) secret ∧
  Values_Get (http.Form (callback relay_state)) "RelayState"
    = relay_state ∧
  saml.signs m (saml.session_claims alice_attributes) issued_token ∧
  saml.DefaultAuthorizeFunc m [] (callback relay_state) alice_attributes =
    Return ([] ++ [http.SetCookieCall (saml.session_cookie issued_token);
                   http.RedirectCall
                     (url.String (http.URL protected_request)) 302])%list.
Proof.
  assert (pem.Decode (list_byte_of_string (saml.Key (saml.ServiceProvider m)))
          = Some {| pem.Bytes := secret |}) as Hb by run.
  assert (saml.encode (saml.relay_state_claims protected_request) secret
          = Return (Ok relay_state)) as Henc by run.
  assert (saml.well_coded (saml.relay_state_claims protected_request) secret)
    as Hw by run_well_coded.
  assert (Values_Get (http.Form (callback relay_state)) "RelayState"
          = relay_state) as Hform by run.
  exact (conj Hb (conj Henc (conj Hw (conj Hform (conj issued_token_signs
           (X11_relay_state_of_guard_brings_callback_back_to_request m []
              protected_request (callback relay_state) alice_attributes
              {| pem.Bytes := secret |} relay_state issued_token
              Hb Henc Hw Hform issued_token_signs)))))).
Defined.




Lemma sp_metadata_URL :
  url.Parse (saml.MetadataURL (saml.ServiceProvider m)) =
    Ok {| url.Scheme := "https"; url.Host := "sp.example.com";
          url.Path := "/saml/metadata"; url.RawQuery := "" |}.
Proof. run. Qed.

Lemma sp_acs_URL :
  url.Parse (saml.AcsURL (saml.ServiceProvider m)) =
    Ok {| url.Scheme := "https"; url.Host := "sp.example.com";
          url.Path := "/saml/acs"; url.RawQuery := "" |}.
Proof. run. Qed.

Lemma X15_witness :
  url.Parse (saml.MetadataURL (saml.ServiceProvider m)) =
    Ok {| url.Scheme := "https"; url.Host := "sp.example.com";
          url.Path := "/saml/metadata"; url.RawQuery := "" |} ∧
  saml.ServeHTTP m [] metadata_request =
    Return ([] ++ [http.WriteCall
                     (saml.MetadataXML (saml.ServiceProvider m))], [])%list ∧
  url.Parse (saml.AcsURL (saml.ServiceProvider m)) =
    Ok {| url.Scheme := "https"; url.Host := "sp.example.com";
          url.Path := "/saml/acs"; url.RawQuery := "" |} ∧
  saml.ServeHTTP m [] other_request =
    Return ([] ++ [http.ErrorCall "404 page not found" 404], [])%list.
Proof.
  refine (conj sp_metadata_URL (conj _ (conj sp_acs_URL _))).
  - exact (proj1 (X15_ServeHTTP_serves_metadata_first_and_404_elsewhere m []
                    metadata_request _ sp_metadata_URL) eq_refl).
  - apply (proj2 (X15_ServeHTTP_serves_metadata_first_and_404_elsewhere m []
                    other_request _ sp_metadata_URL) _ sp_acs_URL);
      discriminate.
Defined.

Lemma X16_witness :
  saml.ParseResponse (saml.ServiceProvider m)
    (http.ParseForm (assertion_callback "tampered" [])) "" =
    inr (saml.InvalidResponseError "tampered" Standin.now
           "cannot validate signature on Response") ∧
  ∃ logged,
    saml.ServeHTTP m [] (assertion_callback "tampered" []) =
      Return ([] ++ [http.ErrorCall "Forbidden" 403], logged)%list ∧
    ∃ format,
      logged = [saml.Printf format "tampered" Standin.now
                  "cannot validate signature on Response"].
Proof.
  assert (saml.ParseResponse (saml.ServiceProvider m)
            (http.ParseForm (assertion_callback "tampered" [])) "" =
          inr (saml.InvalidResponseError "tampered" Standin.now
                 "cannot validate signature on Response")) as Hp by run.
  refine (conj Hp _).
  refine (X16_ServeHTTP_answers_every_verifier_error_with_the_same_403 m []
            (assertion_callback "tampered" []) _ _ _
            sp_metadata_URL sp_acs_URL _ eq_refl Hp).
  discriminate.
Defined.

Lemma X17_witness :
  saml.AuthorizeFunc m = None ∧
  saml.ServeHTTP m [] (assertion_callback "uid=alice@example.com" []) =
    Return ([http.SetCookieCall (saml.session_cookie issued_token);
             http.RedirectCall "/" 302], []) ∧
  ∃ attrs signedToken,
    saml.ParseResponse (saml.ServiceProvider m)
      (http.ParseForm (assertion_callback "uid=alice@example.com" [])) ""
      = inl attrs ∧
    saml.signs m (saml.session_claims attrs) signedToken ∧
    saml.session_cookie issued_token = saml.session_cookie signedToken.
Proof.
  assert (saml.ServeHTTP m [] (assertion_callback "uid=alice@example.com" [])
          = Return ([http.SetCookieCall (saml.session_cookie issued_token);
                     http.RedirectCall "/" 302], [])) as Hres by run.
  refine (conj eq_refl (conj Hres _)).
  exact (X17_ServeHTTP_sets_cookie_only_for_verified_assertion m [] _
           (assertion_callback "uid=alice@example.com" []) []
           [http.SetCookieCall (saml.session_cookie issued_token);
            http.RedirectCall "/" 302]
           (saml.session_cookie issued_token) eq_refl Hres eq_refl
           (list_elem_of_here _ _)).
Defined.



End FurtherConcrete.
